(** * VIZTRTR: the Docling parse adapter ([ui/server/python/docling_parser.py])

    A shallow embedding of the adapter script and the properties its
    specification states about it.

    The script has two parts: [parse_document], which drives the external
    document converter inside one [try ... except Exception] block and
    shapes an envelope (a Python [dict]), and the [__main__] block, which
    resolves the file path from [sys.argv] or standard input, serialises the
    envelope with [json.dumps] and prints it.

    What is embedded and how:
    - Python [str] values are sequences of Unicode code points ([pystr]).
    - Python values that reach the envelope are the inductive type [pyval];
      a [dict] is an association list in insertion order, which is the order
      [json.dumps] writes.
    - Exceptions are values of type [exn] carrying their class (an instance
      of [Exception], [SystemExit] or [KeyboardInterrupt]) and [str(e)].
    - Effects (reading standard input, printing, calling the converter,
      raising) live in the monad [M] over a [world].  Standard output has
      a codec: [print] raises [UnicodeEncodeError], and writes nothing,
      when the codec cannot encode the text.
    - The external converter is a value of type [Collaborator]: what its
      entry points return or raise.  Methods return what their names promise
      (markdown text); attributes that the script probes dynamically
      ([getattr], [hasattr], [callable]) are modelled dynamically.
    - [pathlib], [str.strip], [readline] and [json.dumps] are modelled after
      CPython 3.11 to 3.13 on a POSIX system (pure paths of the POSIX
      flavour; [json.dumps] refuses integers of more than 4300 digits).
      Standard input is the text stream [sys.stdin] as the script sees
      it, not the descriptor under it.  Floats, the recursion limit and
      streams that cannot be written to are outside the model. *)

From Stdlib Require Import String Ascii DecimalString.
From Stdlib Require Import List NArith ZArith Bool Lia.
Import ListNotations.

Set Implicit Arguments.

(* ================================================================== *)
(** * Python strings *)
(* ================================================================== *)

Module PyStr.

(** A Python [str]: its code points. *)
Definition pystr := list N.

(** An ASCII literal as a [pystr]. *)
Definition py (s : string) : pystr :=
  List.map N_of_ascii (list_ascii_of_string s).

Definition quote : N := 34%N.      (* the double quote *)
Definition backslash : N := 92%N.
Definition newline : N := 10%N.
Definition slash : N := 47%N.
Definition dot : N := 46%N.
Definition space : N := 32%N.

(** A literal between double quotes. *)
Definition quoted (s : pystr) : pystr := quote :: s ++ [quote].

Fixpoint eqb (a b : pystr) : bool :=
  match a, b with
  | [], [] => true
  | x :: a', y :: b' => N.eqb x y && eqb a' b'
  | _, _ => false
  end.

(** [str.isspace] on one code point: the code points CPython lists in
    [_PyUnicode_IsWhitespace]. *)
Definition isspace (c : N) : bool :=
  ((9 <=? c) && (c <=? 13) || (28 <=? c) && (c <=? 32)
   || (c =? 133) || (c =? 160) || (c =? 5760)
   || (8192 <=? c) && (c <=? 8202)
   || (c =? 8232) || (c =? 8233) || (c =? 8239) || (c =? 8287)
   || (c =? 12288))%N.

(** [s.lstrip()] *)
Fixpoint lstrip (s : pystr) : pystr :=
  match s with
  | [] => []
  | c :: s' => if isspace c then lstrip s' else s
  end.

(** [s.rstrip()] *)
Definition rstrip (s : pystr) : pystr := rev (lstrip (rev s)).

(** [s.strip()] *)
Definition strip (s : pystr) : pystr := rstrip (lstrip s).

(** [s.rfind(c)] for a one-character needle: the highest index, or -1. *)
Fixpoint rfind_from (c : N) (s : pystr) (i : Z) (best : Z) : Z :=
  match s with
  | [] => best
  | x :: s' => rfind_from c s' (i + 1) (if N.eqb x c then i else best)
  end.

Definition rfind (c : N) (s : pystr) : Z := rfind_from c s 0 (-1).

(** [s.split(sep)] for a one-character separator. *)
Fixpoint split (sep : N) (s : pystr) : list pystr :=
  match s with
  | [] => [[]]
  | x :: s' =>
      if N.eqb x sep then [] :: split sep s'
      else match split sep s' with
           | [] => [[x]]
           | w :: ws => (x :: w) :: ws
           end
  end.

(** [str(n)] for an [int]. *)
Definition of_Z (z : Z) : pystr := py (NilZero.string_of_int (Z.to_int z)).

(** [bool(s)]: a string is truthy when it is not empty. *)
Definition truthy (s : pystr) : bool :=
  match s with [] => false | _ :: _ => true end.

End PyStr.

Import PyStr.

(* ================================================================== *)
(** * pathlib: [Path(p).name] and [Path(p).suffix] *)
(* ================================================================== *)

Module Path.

(** The parts of a pure POSIX path after its root: the components between
    separators, with empty components and single dots dropped. *)
Definition tail (p : pystr) : list pystr :=
  filter (fun x => truthy x && negb (PyStr.eqb x [dot])) (split slash p).

(** [Path(p).name]: the final component, if any. *)
Definition name (p : pystr) : pystr := last (tail p) [].

(** [Path(p).suffix]: [name[i:]] for [i = name.rfind('.')] when
    [0 < i < len(name) - 1], the empty string otherwise. *)
Definition suffix (p : pystr) : pystr :=
  let n := name p in
  let i := rfind dot n in
  if ((0 <? i) && (i <? Z.of_nat (length n) - 1))%Z
  then skipn (Z.to_nat i) n
  else [].

End Path.

(* ================================================================== *)
(** * Python values and exceptions *)
(* ================================================================== *)

(** The values that flow from the collaborator into the envelope.  A
    callable (a bound method, a function) carries the name of its type,
    which is what [json.dumps] reports when it refuses it. *)
#[warnings="-register-all"]
Inductive pyval : Type :=
| PyNone
| PyBool (b : bool)
| PyInt (z : Z)
| PyStr (s : pystr)
| PyList (items : list pyval)
| PyDict (items : list (pystr * pyval))
| PyCallable (type_name : pystr).

(** [callable(v)] *)
Definition callable (v : pyval) : bool :=
  match v with PyCallable _ => true | _ => false end.

(** [d.get(k)] on the items of a dict: [None] when the key is absent. *)
Fixpoint dict_get (k : pystr) (items : list (pystr * pyval)) : option pyval :=
  match items with
  | [] => None
  | (k', v) :: rest => if PyStr.eqb k k' then Some v else dict_get k rest
  end.

(** [v.get(k)] when [v] is a dict. *)
Definition get (k : pystr) (v : pyval) : option pyval :=
  match v with PyDict items => dict_get k items | _ => None end.

(** The exception classes the script can tell apart: [except Exception]
    catches the first and lets the other two, which derive from
    [BaseException] only, through; the interpreter turns an uncaught
    [SystemExit] into the exit status. *)
Inductive exn_class : Type :=
| ExceptionCls
| SystemExitCls (code : Z)
| KeyboardInterruptCls.

Record exn : Type := mkExn {
  exn_class_of : exn_class;
  exn_str : pystr                 (* str(e) *)
}.

(** [isinstance(e, Exception)] *)
Definition is_Exception (e : exn) : bool :=
  match exn_class_of e with ExceptionCls => true | _ => false end.

(** [AttributeError] for a missing attribute of an object. *)
Definition AttributeError (type_name attr : pystr) : exn :=
  mkExn ExceptionCls
    (py "'" ++ type_name ++ py "' object has no attribute '" ++ attr ++ py "'").

(** [TypeError] of [json.dumps] for a value it cannot serialise. *)
Definition TypeError_not_serializable (type_name : pystr) : exn :=
  mkExn ExceptionCls
    (py "Object of type " ++ type_name ++ py " is not JSON serializable").

(** [ValueError] of the conversion of an [int] of too many digits to
    text. *)
Definition ValueError_int_digits : exn :=
  mkExn ExceptionCls
    (py "Exceeds the limit (4300 digits) for integer string conversion; use sys.set_int_max_str_digits() to increase the limit").

(** [SystemExit(code)], what [sys.exit(code)] raises. *)
Definition SystemExit (code : Z) : exn :=
  mkExn (SystemExitCls code) (of_Z code).

(** The result of evaluating an expression: a value or a raised exception. *)
Inductive result (A : Type) : Type :=
| Ok (a : A)
| Raise (e : exn).
Arguments Ok {A} a.
Arguments Raise {A} e.

(* ================================================================== *)
(** * The world and the effect monad *)
(* ================================================================== *)

(** What the process does that can be observed from outside. *)
Inductive event : Type :=
| EvReadline                       (* sys.stdin.readline() *)
| EvPrint (text : pystr)           (* print(text) *)
| EvNewConverter                   (* DocumentConverter() *)
| EvConvert (path : pystr).        (* converter.convert(path) *)

Record world : Type := mkWorld {
  w_stdin : pystr;                 (* the text sys.stdin has yet to hand
                                      to the script *)
  w_stdout : pystr;                (* standard output written so far *)
  w_trace : list event             (* most recent event last *)
}.

Definition M (A : Type) : Type := world -> result A * world.

Definition ret {A} (a : A) : M A := fun w => (Ok a, w).

Definition bind {A B} (m : M A) (k : A -> M B) : M B :=
  fun w => match m w with
           | (Ok a, w') => k a w'
           | (Raise e, w') => (Raise e, w')
           end.

Definition raise {A} (e : exn) : M A := fun w => (Raise e, w).

(** A pure evaluation that may raise. *)
Definition lift {A} (r : result A) : M A := fun w => (r, w).

Definition log (ev : event) : M unit :=
  fun w => (Ok tt, mkWorld (w_stdin w) (w_stdout w) (w_trace w ++ [ev])).

Declare Scope py_scope.
Delimit Scope py_scope with py.
Notation "x <- m ;; k" := (bind m (fun x => k))
  (at level 61, m at next level, right associativity) : py_scope.
Notation "m ;; k" := (bind m (fun _ => k))
  (at level 61, right associativity) : py_scope.
Open Scope py_scope.

(** [try: body except Exception as e: handler(e)] *)
Definition try_except_Exception {A} (body : M A) (handler : exn -> M A) : M A :=
  fun w => match body w with
           | (Ok a, w') => (Ok a, w')
           | (Raise e, w') =>
               if is_Exception e then handler e w' else (Raise e, w')
           end.

(** [line.readline()] on a text stream that ends lines at the newline
    character: the text up to and including the first newline. *)
Fixpoint readline_split (s : pystr) : pystr * pystr :=
  match s with
  | [] => ([], [])
  | c :: s' =>
      if N.eqb c newline then ([c], s')
      else let (l, r) := readline_split s' in (c :: l, r)
  end.

(** [sys.stdin.readline()]: the script is handed the first line; the
    rest stays with the stream object, for the script's later reads (it
    makes none).  What the stream has taken from the descriptor under it
    is not modelled. *)
Definition stdin_readline : M pystr :=
  fun w => let (line, rest) := readline_split (w_stdin w) in
           (Ok line, mkWorld rest (w_stdout w) (w_trace w ++ [EvReadline])).

(** The codec of standard output, with the [strict] error handler or one
    like it: which code points above ASCII it can encode, and the message
    of the [UnicodeEncodeError] it raises on a text it cannot encode. *)
Record codec : Type := mkCodec {
  codec_encodes : N -> bool;
  codec_error : pystr -> pystr
}.

(** The code points the codec can encode.  The codecs modelled encode
    all of ASCII, as UTF-8 and the ASCII-based locale codecs do (of
    CPython's text codecs only cp864 does not, for the percent sign). *)
Definition encodable (k : codec) (ch : N) : bool :=
  (ch <? 128)%N || codec_encodes k ch.

(** The codec can encode the whole text. *)
Definition printable (k : codec) (text : pystr) : bool :=
  forallb (encodable k) text.

(** [UnicodeEncodeError], raised by the write of a text the codec cannot
    encode. *)
Definition UnicodeEncodeError (k : codec) (text : pystr) : exn :=
  mkExn ExceptionCls (codec_error k text).

(** [print(text)]: the text and a newline go to standard output; when the
    codec cannot encode the text the write raises and nothing is
    written. *)
Definition print (k : codec) (text : pystr) : M unit :=
  fun w =>
    if printable k text then
      (Ok tt, mkWorld (w_stdin w) (w_stdout w ++ text ++ [newline])
                      (w_trace w ++ [EvPrint text]))
    else (Raise (UnicodeEncodeError k text), w).

(** [sys.exit(code)] *)
Definition sys_exit {A} (code : Z) : M A := raise (SystemExit code).

(* ================================================================== *)
(** * json.dumps *)
(* ================================================================== *)

Module Json.

Definition hex_digit (n : N) : N :=
  (if n <? 10 then 48 + n else 87 + n)%N.     (* 0-9, a-f *)

(** ['\\u{0:04x}'.format(n)] *)
Definition u_escape (n : N) : pystr :=
  [backslash; 117%N;
   hex_digit ((n / 4096) mod 16); hex_digit ((n / 256) mod 16);
   hex_digit ((n / 16) mod 16); hex_digit (n mod 16)].

(** The two-character escapes of [ESCAPE_DCT]. *)
Definition short_escape (c : N) : option pystr :=
  (if c =? 92 then Some [backslash; backslash]
   else if c =? 34 then Some [backslash; quote]
   else if c =? 8 then Some [backslash; 98]
   else if c =? 12 then Some [backslash; 102]
   else if c =? 10 then Some [backslash; 110]
   else if c =? 13 then Some [backslash; 114]
   else if c =? 9 then Some [backslash; 116]
   else None)%N.

(** One code point of a string literal.  Without [ensure_ascii] only the
    quote, the backslash and the control characters below 0x20 are escaped;
    with it, so is everything outside the printable ASCII range, code
    points above the basic plane as a surrogate pair. *)
Definition escape_char (ensure_ascii : bool) (c : N) : pystr :=
  match short_escape c with
  | Some e => e
  | None =>
      (if c <? 32 then u_escape c
       else if ensure_ascii && negb (c <=? 126) then
         if c <? 65536 then u_escape c
         else let n := c - 65536 in
              u_escape (N.lor 55296 (N.land (N.shiftr n 10) 1023))
              ++ u_escape (N.lor 56320 (N.land n 1023))
       else [c])%N
  end.

(** [encode_basestring] / [encode_basestring_ascii] *)
Definition encode_string (ensure_ascii : bool) (s : pystr) : pystr :=
  quoted (flat_map (escape_char ensure_ascii) s).

(** The newline and indentation written before an item at [level], when an
    indent is set. *)
Definition newline_indent (indent : option nat) (level : nat) : pystr :=
  match indent with
  | None => []
  | Some n => newline :: repeat space (n * level)
  end.

(** The item separator: [', '] by default, [','] followed by the newline
    and indentation when an indent is set. *)
Definition item_separator (indent : option nat) (level : nat) : pystr :=
  match indent with
  | None => py ", "
  | Some _ => py "," ++ newline_indent indent level
  end.

Definition key_separator : pystr := py ": ".

(** The limit on the decimal digits of an [int] that is converted to
    text ([sys.get_int_max_str_digits()], by default). *)
Definition int_max_str_digits : Z := 4300.

(** The number of decimal digits of [z], without the sign. *)
Definition int_digits (z : Z) : Z := Z.of_nat (length (of_Z (Z.abs z))).

Definition int_str_allowed (z : Z) : bool :=
  (int_digits z <=? int_max_str_digits)%Z.

(** The loop over the items of a list or dict: each item is encoded by
    [enc], every item but the first is preceded by the separator, and the
    first item that cannot be encoded ends the loop with its exception. *)
Fixpoint encode_items {A : Type} (enc : A -> result pystr) (sep : pystr)
    (first : bool) (l : list A) : result pystr :=
  match l with
  | [] => Ok []
  | x :: l' =>
      match enc x with
      | Raise e => Raise e
      | Ok sx =>
          match encode_items enc sep false l' with
          | Raise e => Raise e
          | Ok r => Ok ((if first then [] else sep) ++ sx ++ r)
          end
      end
  end.

(** The encoder of [json.dumps], at nesting depth [level]. *)
Fixpoint encode (ensure_ascii : bool) (indent : option nat) (level : nat)
    (v : pyval) : result pystr :=
  match v with
  | PyNone => Ok (py "null")
  | PyBool true => Ok (py "true")
  | PyBool false => Ok (py "false")
  | PyInt z =>
      if int_str_allowed z then Ok (of_Z z) else Raise ValueError_int_digits
  | PyStr s => Ok (encode_string ensure_ascii s)
  | PyCallable t => Raise (TypeError_not_serializable t)
  | PyList [] => Ok (py "[]")
  | PyList items =>
      match encode_items (encode ensure_ascii indent (S level))
                         (item_separator indent (S level)) true items with
      | Raise e => Raise e
      | Ok body =>
          Ok (py "[" ++ newline_indent indent (S level) ++ body
              ++ newline_indent indent level ++ py "]")
      end
  | PyDict [] => Ok (py "{}")
  | PyDict items =>
      match encode_items
              (fun kv : pystr * pyval =>
                 match encode ensure_ascii indent (S level) (snd kv) with
                 | Raise e => Raise e
                 | Ok sx =>
                     Ok (encode_string ensure_ascii (fst kv) ++ key_separator
                         ++ sx)
                 end)
              (item_separator indent (S level)) true items with
      | Raise e => Raise e
      | Ok body =>
          Ok (py "{" ++ newline_indent indent (S level) ++ body
              ++ newline_indent indent level ++ py "}")
      end
  end.

(** [json.dumps(v, ensure_ascii=..., indent=...)]; the defaults are
    [ensure_ascii=True] and [indent=None]. *)
Definition dumps (ensure_ascii : bool) (indent : option nat) (v : pyval)
  : result pystr :=
  encode ensure_ascii indent 0 v.

End Json.

(* ================================================================== *)
(** * The UTF-8 codec *)
(* ================================================================== *)

Definition is_surrogate (ch : N) : bool :=
  ((55296 <=? ch) && (ch <=? 57343))%N.

(** The length of the run of surrogates a text starts with. *)
Fixpoint surrogate_run (s : pystr) : nat :=
  match s with
  | [] => 0
  | ch :: s' => if is_surrogate ch then S (surrogate_run s') else 0
  end.

(** The message of the error the UTF-8 encoder raises: it names the first
    surrogate, or the positions of the first run of them. *)
Fixpoint utf8_error_from (s : pystr) (i : Z) : pystr :=
  match s with
  | [] => []
  | ch :: s' =>
      if is_surrogate ch then
        py "'utf-8' codec can't encode "
        ++ match surrogate_run s' with
           | O => py "character '" ++ Json.u_escape ch ++ py "' in position "
                  ++ of_Z i
           | S n => py "characters in position " ++ of_Z i ++ py "-"
                    ++ of_Z (i + Z.of_nat (S n))
           end
        ++ py ": surrogates not allowed"
      else utf8_error_from s' (i + 1)
  end.

(** UTF-8 with the [strict] error handler: every code point of a [str]
    but the surrogates. *)
Definition utf8 : codec :=
  mkCodec (fun ch => negb (is_surrogate ch) && (ch <? 1114112)%N)
          (fun text => utf8_error_from text 0).

(** Values [json.dumps] accepts: those with no callable and no integer
    of too many digits inside. *)
Fixpoint serializable (v : pyval) : bool :=
  match v with
  | PyCallable _ => false
  | PyInt z => Json.int_str_allowed z
  | PyList items => forallb serializable items
  | PyDict items => forallb (fun kv => serializable (snd kv)) items
  | _ => true
  end.

(* ================================================================== *)
(** * The collaborator: the document converter *)
(* ================================================================== *)

(** What evaluating [table.export_to_markdown] finds. *)
Inductive export_attr : Type :=
| ExportMissing                        (* no such attribute *)
| ExportMethod (call : result pystr)   (* a method; what calling it on the
                                          document returns or raises *)
| ExportNotCallable.                   (* an attribute without [__call__] *)

Record Table : Type := mkTable {
  tbl_type_name : pystr;               (* type(table).__name__ *)
  tbl_export_to_markdown : export_attr;
  tbl_str : pystr;                     (* str(table) *)
  tbl_num_rows : option pyval;         (* the attribute, if there is one *)
  tbl_num_cols : option pyval
}.

Record Document : Type := mkDocument {
  doc_export_to_markdown : result pystr;   (* document.export_to_markdown() *)
  doc_tables : list Table;                 (* document.tables *)
  doc_num_pages : option pyval             (* the attribute, if there is one *)
}.

Record Collaborator : Type := mkCollaborator {
  new_converter : result unit;             (* DocumentConverter() *)
  convert_result : pystr -> result Document  (* converter.convert(path).document *)
}.

(** [getattr(obj, name, default)] on an attribute that is there or not. *)
Definition getattr_default (attr : option pyval) (default : pyval) : pyval :=
  match attr with Some v => v | None => default end.

(* ================================================================== *)
(** * parse_document *)
(* ================================================================== *)

(** Line 41: [table.export_to_markdown(result.document) if
    hasattr(table.export_to_markdown, '__call__') else str(table)].  The
    condition evaluates [table.export_to_markdown] first, which raises
    [AttributeError] when the table has no such attribute. *)
Definition table_markdown (t : Table) : result pystr :=
  match tbl_export_to_markdown t with
  | ExportMissing =>
      Raise (AttributeError (tbl_type_name t) (py "export_to_markdown"))
  | ExportMethod call => call
  | ExportNotCallable => Ok (tbl_str t)
  end.

(** Lines 42-46: the record appended for one table. *)
Definition table_record (t : Table) (table_markdown : pystr) : pyval :=
  PyDict [ (py "data", PyStr table_markdown);
           (py "num_rows", getattr_default (tbl_num_rows t) PyNone);
           (py "num_cols", getattr_default (tbl_num_cols t) PyNone) ].

(** Lines 38-46: the loop over [result.document.tables], appending to
    [tables]. *)
Fixpoint tables_loop (ts : list Table) (tables : list pyval)
  : result (list pyval) :=
  match ts with
  | [] => Ok tables
  | table :: ts' =>
      match table_markdown table with
      | Raise e => Raise e
      | Ok md => tables_loop ts' (tables ++ [table_record table md])
      end
  end.

(** Lines 49-52: the page count, unset when it is a callable. *)
Definition page_count (doc : Document) : pyval :=
  let num_pages := getattr_default (doc_num_pages doc) PyNone in
  if callable num_pages then PyNone else num_pages.

(** Lines 54-58. *)
Definition metadata_of (doc : Document) (file_path : pystr) : pyval :=
  PyDict [ (py "num_pages", page_count doc);
           (py "file_type", PyStr (Path.suffix file_path));
           (py "file_name", PyStr (Path.name file_path)) ].

(** Lines 60-65; [str(markdown)] of a [str] is that [str]. *)
Definition success_envelope (markdown : pystr) (tables : list pyval)
    (metadata : pyval) : pyval :=
  PyDict [ (py "success", PyBool true);
           (py "markdown", PyStr markdown);
           (py "tables", PyList tables);
           (py "metadata", metadata) ].

(** Lines 68-74. *)
Definition failure_envelope (e : exn) : pyval :=
  PyDict [ (py "success", PyBool false);
           (py "error", PyStr (exn_str e));
           (py "markdown", PyNone);
           (py "tables", PyList []);
           (py "metadata", PyDict []) ].

(** Lines 28-65: the body of the [try]. *)
Definition parse_document_try (c : Collaborator) (file_path : pystr)
  : M pyval :=
  log EvNewConverter ;;
  _ <- lift (new_converter c) ;;
  log (EvConvert file_path) ;;
  document <- lift (convert_result c file_path) ;;
  markdown <- lift (doc_export_to_markdown document) ;;
  tables <- lift (tables_loop (doc_tables document) []) ;;
  ret (success_envelope markdown tables (metadata_of document file_path)).

(** Lines 12-74. *)
Definition parse_document (c : Collaborator) (file_path : pystr) : M pyval :=
  try_except_Exception
    (parse_document_try c file_path)
    (fun e => ret (failure_envelope e)).

(* ================================================================== *)
(** * The [__main__] block and the process *)
(* ================================================================== *)

(** Lines 85-88: the envelope printed when no path was given. *)
Definition missing_input_envelope : pyval :=
  PyDict [ (py "success", PyBool false);
           (py "error", PyStr (py "No file path provided")) ].

(** Lines 78-82: the path is [sys.argv[1]] when there is one, the first
    line of standard input, stripped, otherwise. *)
Definition resolve_file_path (argv : list pystr) : M pystr :=
  if (1 <? length argv)%nat then ret (nth 1 argv [])
  else (line <- stdin_readline ;; ret (strip line)).

(** Lines 76-95. *)
Definition main (k : codec) (c : Collaborator) (argv : list pystr)
  : M unit :=
  file_path <- resolve_file_path argv ;;
  (if negb (truthy file_path) then
     text <- lift (Json.dumps true None missing_input_envelope) ;;
     print k text ;;
     sys_exit 1
   else ret tt) ;;
  result <- parse_document c file_path ;;
  text <- lift (Json.dumps false (Some 2%nat) result) ;;
  print k text.

(** How the process ends: with an exit status, or with the traceback of
    an exception nothing caught. *)
Inductive termination : Type :=
| Exit (status : Z)
| Traceback (e : exn).

Record outcome : Type := mkOutcome {
  out_stdout : pystr;
  out_exit : termination;
  out_trace : list event
}.

(** The interpreter around the script: normal completion is status 0, an
    uncaught [SystemExit] is its code, any other uncaught exception is a
    traceback. *)
Definition terminate (r : result unit) : termination :=
  match r with
  | Ok _ => Exit 0
  | Raise e =>
      match exn_class_of e with
      | SystemExitCls code => Exit code
      | _ => Traceback e
      end
  end.

(** One run of the program with argument vector [argv] (the script name
    first), [stdin] on standard input, and standard output encoded by
    [k]. *)
Definition run (k : codec) (c : Collaborator) (argv : list pystr)
    (stdin : pystr) : outcome :=
  let (r, w) := main k c argv (mkWorld stdin [] []) in
  mkOutcome (w_stdout w) (terminate r) (w_trace w).

(** The path an invocation resolves, as a function of its inputs. *)
Definition resolved_path (argv : list pystr) (stdin : pystr) : pystr :=
  if (1 <? length argv)%nat then nth 1 argv []
  else strip (fst (readline_split stdin)).

(** The events of resolving the path: one [readline] exactly when there
    is no argument. *)
Definition resolve_events (argv : list pystr) : list event :=
  if (1 <? length argv)%nat then [] else [EvReadline].

(** The run reads standard input. *)
Definition reads_stdin (o : outcome) : bool :=
  existsb (fun ev => match ev with EvReadline => true | _ => false end)
          (out_trace o).

(** The run invokes the converter. *)
Definition invokes_converter (o : outcome) : bool :=
  existsb (fun ev => match ev with
                     | EvNewConverter | EvConvert _ => true
                     | _ => false
                     end)
          (out_trace o).

(** What lines 92-95 write and how the process then ends, given what
    [parse_document] evaluated to. *)
Definition emit (k : codec) (r : result pyval) : pystr * termination :=
  match r with
  | Ok envelope =>
      match Json.dumps false (Some 2%nat) envelope with
      | Ok text =>
          if printable k text then (text ++ [newline], Exit 0)
          else ([], Traceback (UnicodeEncodeError k text))
      | Raise e => ([], terminate (Raise e))
      end
  | Raise e => ([], terminate (Raise e))
  end.

(* ================================================================== *)
(** * Vocabulary of the specification *)
(* ================================================================== *)

(** The table yields a record: its markdown is obtained without raising. *)
Definition record_for (t : Table) (r : pyval) : Prop :=
  exists md, table_markdown t = Ok md /\ r = table_record t md.

(** Conversion and extraction succeed on [file_path], giving [doc] and
    its markdown [md]. *)
Definition extraction_succeeds (c : Collaborator) (file_path : pystr)
    (doc : Document) (md : pystr) : Prop :=
  new_converter c = Ok tt /\
  convert_result c file_path = Ok doc /\
  doc_export_to_markdown doc = Ok md /\
  Forall (fun t => exists s, table_markdown t = Ok s) (doc_tables doc).

(** The converter or the result extraction raises [e] on [file_path]: the
    first step that raises, in the order the script takes them. *)
Inductive extraction_fails (c : Collaborator) (file_path : pystr) (e : exn)
  : Prop :=
| fails_new_converter :
    new_converter c = Raise e ->
    extraction_fails c file_path e
| fails_convert :
    new_converter c = Ok tt ->
    convert_result c file_path = Raise e ->
    extraction_fails c file_path e
| fails_export doc :
    new_converter c = Ok tt ->
    convert_result c file_path = Ok doc ->
    doc_export_to_markdown doc = Raise e ->
    extraction_fails c file_path e
| fails_table doc md before t after :
    new_converter c = Ok tt ->
    convert_result c file_path = Ok doc ->
    doc_export_to_markdown doc = Ok md ->
    doc_tables doc = before ++ t :: after ->
    Forall (fun t' => exists s, table_markdown t' = Ok s) before ->
    table_markdown t = Raise e ->
    extraction_fails c file_path e.

(** The line printed when no path was given. *)
Definition missing_input_line : pystr :=
  py "{" ++ quoted (py "success") ++ py ": false, "
  ++ quoted (py "error") ++ py ": " ++ quoted (py "No file path provided")
  ++ py "}".

(** The text [print] writes for the failure envelope of [e]. *)
Definition failure_text (e : exn) : pystr :=
  py "{" ++ [newline]
  ++ py "  " ++ quoted (py "success") ++ py ": false," ++ [newline]
  ++ py "  " ++ quoted (py "error") ++ py ": "
  ++ Json.encode_string false (exn_str e) ++ py "," ++ [newline]
  ++ py "  " ++ quoted (py "markdown") ++ py ": null," ++ [newline]
  ++ py "  " ++ quoted (py "tables") ++ py ": []," ++ [newline]
  ++ py "  " ++ quoted (py "metadata") ++ py ": {}" ++ [newline]
  ++ py "}".

(** Output that spans several lines: a newline occurs before the final
    one that [print] adds. *)
Definition multi_line (out : pystr) : bool :=
  (1 <? count_occ N.eq_dec out newline)%nat.

(** The envelope has no such field. *)
Definition absent (field : pystr) (envelope : pyval) : bool :=
  match get field envelope with None => true | Some _ => false end.

Definition is_null (field : pystr) (envelope : pyval) : bool :=
  match get field envelope with Some PyNone => true | _ => false end.

Definition is_empty_list (field : pystr) (envelope : pyval) : bool :=
  match get field envelope with Some (PyList []) => true | _ => false end.

Definition is_empty_dict (field : pystr) (envelope : pyval) : bool :=
  match get field envelope with Some (PyDict []) => true | _ => false end.

Definition is_str (field : pystr) (envelope : pyval) : bool :=
  match get field envelope with Some (PyStr _) => true | _ => false end.

Definition is_list (field : pystr) (envelope : pyval) : bool :=
  match get field envelope with Some (PyList _) => true | _ => false end.

Definition is_nonempty_dict (field : pystr) (envelope : pyval) : bool :=
  match get field envelope with
  | Some (PyDict (_ :: _)) => true
  | _ => false
  end.

(** The invariant of the envelope: on success the payload is populated
    and there is no error field; on failure the error is a string,
    [markdown] is null, [tables] is the empty list and [metadata] the empty
    mapping. *)
Definition envelope_invariant (envelope : pyval) : bool :=
  match get (py "success") envelope with
  | Some (PyBool true) =>
      absent (py "error") envelope
      && is_str (py "markdown") envelope
      && is_list (py "tables") envelope
      && is_nonempty_dict (py "metadata") envelope
  | Some (PyBool false) =>
      is_str (py "error") envelope
      && is_null (py "markdown") envelope
      && is_empty_list (py "tables") envelope
      && is_empty_dict (py "metadata") envelope
  | _ => false
  end.


(** A value [json.dumps] writes as a JSON scalar: [None], a boolean, a
    string, or an integer within the digit limit. *)
Definition json_scalar (v : pyval) : bool :=
  match v with
  | PyNone | PyBool _ | PyStr _ => true
  | PyInt z => Json.int_str_allowed z
  | PyList _ | PyDict _ | PyCallable _ => false
  end.

(** The row and column counts that reach the records (each table's
    attribute, or [None] where it has none) and the page count that
    reaches the metadata (after the guard of lines 51-52) are JSON
    scalars. *)
Definition dimensions_plain (doc : Document) : bool :=
  forallb (fun t =>
             json_scalar (getattr_default (tbl_num_rows t) PyNone)
             && json_scalar (getattr_default (tbl_num_cols t) PyNone))
          (doc_tables doc)
  && json_scalar (page_count doc).

(** Some table exposes its row or column count as a callable. *)
Definition callable_dimension (doc : Document) : bool :=
  existsb (fun t =>
             callable (getattr_default (tbl_num_rows t) PyNone)
             || callable (getattr_default (tbl_num_cols t) PyNone))
          (doc_tables doc).

(** A string literal that [json.dumps] writes as it is: no quote, no
    backslash, no code point below U+0020. *)
Definition plain_char (ch : N) : bool :=
  (32 <=? ch)%N && negb (ch =? 34)%N && negb (ch =? 92)%N.

(* ================================================================== *)
(** * Concrete collaborators *)
(* ================================================================== *)

Module Sample.

Definition prog : pystr := py "docling_parser.py".
Definition report : pystr := py "docs/2024/report.final.pdf".
Definition w0 : world := mkWorld [] [] [].

(** A table with a markdown export, and a column count as a value. *)
Definition table_a : Table :=
  mkTable (py "TableItem") (ExportMethod (Ok (py "| a | b |")))
          (py "TableItem(a)") None (Some (PyInt 2)).

(** A table whose export attribute is not callable. *)
Definition table_b : Table :=
  mkTable (py "TableItem") ExportNotCallable (py "TableItem(b)")
          (Some (PyInt 4)) None.

(** A table with no export attribute at all. *)
Definition table_bare : Table :=
  mkTable (py "Grid") ExportMissing (py "Grid(1x1)") (Some (PyInt 1))
          (Some (PyInt 1)).

(** A table that exposes its row count as a method. *)
Definition table_method_rows : Table :=
  mkTable (py "TableItem") (ExportMethod (Ok (py "| a |")))
          (py "TableItem(c)") (Some (PyCallable (py "method"))) None.

(** A document with a non-ASCII title (U+00E9), two tables, and the page
    count exposed as a method. *)
Definition doc_two : Document :=
  mkDocument (Ok (py "# R" ++ [233%N] ++ py "sum" ++ [233%N]))
             [table_a; table_b] (Some (PyCallable (py "method"))).

Definition doc_plain_pages : Document :=
  mkDocument (Ok (py "text")) [] (Some (PyInt 12)).

Definition doc_bare_table : Document :=
  mkDocument (Ok (py "text")) [table_a; table_bare] None.

Definition doc_method_rows : Document :=
  mkDocument (Ok (py "text")) [table_method_rows] None.

Definition converts_to (d : Document) : Collaborator :=
  mkCollaborator (Ok tt) (fun _ => Ok d).

Definition file_not_found : exn :=
  mkExn ExceptionCls (py "[Errno 2] No such file or directory").

Definition keyboard_interrupt : exn := mkExn KeyboardInterruptCls [].

(** An error whose message holds a lone surrogate (U+D800). *)
Definition surrogate_message : exn :=
  mkExn ExceptionCls (py "bad " ++ [55296%N] ++ py " char").

(** A converter that raises on every path. *)
Definition fails_with (e : exn) : Collaborator :=
  mkCollaborator (Ok tt) (fun _ => Raise e).

End Sample.

(* ================================================================== *)
(** * Further vocabulary: the trace, and reading back what was written *)
(* ================================================================== *)

(** The texts handed to [print], in order. *)
Fixpoint printed (trace : list event) : list pystr :=
  match trace with
  | [] => []
  | EvPrint text :: rest => text :: printed rest
  | _ :: rest => printed rest
  end.

(** The events [parse_document] adds to the trace: the converter is built,
    and [convert] is called once on the path when building it succeeded. *)
Definition converter_events (c : Collaborator) (file_path : pystr)
  : list event :=
  EvNewConverter ::
  match new_converter c with
  | Ok _ => [EvConvert file_path]
  | Raise _ => []
  end.

(** Reading a JSON string literal back (RFC 8259, section 7), as a client
    of the program does with what it prints. *)
Module JsonRead.

Definition hex_value (d : N) : option N :=
  (if (48 <=? d) && (d <=? 57) then Some (d - 48)
   else if (97 <=? d) && (d <=? 102) then Some (d - 87)
   else if (65 <=? d) && (d <=? 70) then Some (d - 55)
   else None)%N.

(** The character a two-character escape stands for. *)
Definition unescape_short (x : N) : option N :=
  (if x =? 34 then Some 34
   else if x =? 92 then Some 92
   else if x =? 47 then Some 47
   else if x =? 98 then Some 8
   else if x =? 102 then Some 12
   else if x =? 110 then Some 10
   else if x =? 114 then Some 13
   else if x =? 116 then Some 9
   else None)%N.

(** After the opening quote: the characters up to the closing quote,
    unescaped, and the text that follows the closing quote.  Raw control
    characters and unknown escapes are rejected. *)
Fixpoint scan_string (s : pystr) : option (pystr * pystr) :=
  match s with
  | [] => None
  | ch :: rest =>
      if (ch =? quote)%N then Some ([], rest)
      else if (ch =? backslash)%N then
        match rest with
        | [] => None
        | x :: rest1 =>
            if (x =? 117)%N then
              match rest1 with
              | a :: b :: c :: d :: rest2 =>
                  match hex_value a, hex_value b, hex_value c, hex_value d with
                  | Some ha, Some hb, Some hc, Some hd =>
                      match scan_string rest2 with
                      | Some (t, r) =>
                          Some ((ha * 4096 + hb * 256 + hc * 16 + hd)%N :: t, r)
                      | None => None
                      end
                  | _, _, _, _ => None
                  end
              | _ => None
              end
            else
              match unescape_short x with
              | Some y =>
                  match scan_string rest1 with
                  | Some (t, r) => Some (y :: t, r)
                  | None => None
                  end
              | None => None
              end
        end
      else if (ch <? 32)%N then None
      else
        match scan_string rest with
        | Some (t, r) => Some (ch :: t, r)
        | None => None
        end
  end.

(** A whole literal: the opening quote, the content, the closing quote,
    and nothing after it. *)
Definition read_string (s : pystr) : option pystr :=
  match s with
  | [] => None
  | q :: body =>
      if (q =? quote)%N then
        match scan_string body with
        | Some (t, []) => Some t
        | _ => None
        end
      else None
  end.

End JsonRead.

(* ================================================================== *)
(** * The model on concrete inputs *)
(* ================================================================== *)

Example path_name_nested :
  Path.name (py "docs/2024/report.final.pdf") = py "report.final.pdf".
Proof. reflexivity. Qed.

Example path_suffix_last_dot :
  Path.suffix (py "docs/2024/report.final.pdf") = py ".pdf".
Proof. reflexivity. Qed.

Example path_suffix_hidden_file : Path.suffix (py "/home/u/.bashrc") = [].
Proof. reflexivity. Qed.

Example path_suffix_trailing_dot : Path.suffix (py "notes.") = [].
Proof. reflexivity. Qed.

Example path_name_trailing_separator : Path.name (py "a/b/./") = py "b".
Proof. reflexivity. Qed.

Example strip_both_ends :
  strip (py "  a b.pdf  " ++ [newline]) = py "a b.pdf".
Proof. reflexivity. Qed.

Example strip_no_break_space : strip [160%N; 97%N; 8232%N] = [97%N].
Proof. reflexivity. Qed.

Example readline_first_line :
  readline_split (py "a.pdf" ++ [newline] ++ py "b.pdf")
  = (py "a.pdf" ++ [newline], py "b.pdf").
Proof. reflexivity. Qed.

Example of_Z_decimal : of_Z (-120) = py "-120" /\ of_Z 0 = py "0".
Proof. split; reflexivity. Qed.

Example encode_string_escapes :
  Json.encode_string false [quote; 233%N; 9%N; 1%N; 128512%N]
  = quoted ([backslash; quote; 233%N; backslash] ++ py "t"
            ++ [backslash] ++ py "u0001" ++ [128512%N])
  /\ Json.encode_string true [233%N; 128512%N]
     = quoted ([backslash] ++ py "u00e9" ++ [backslash] ++ py "ud83d"
               ++ [backslash] ++ py "ude00").
Proof. split; reflexivity. Qed.

Example dumps_compact_nested :
  Json.dumps true None
    (PyDict [(py "a", PyList [PyInt 1; PyNone]); (py "b", PyDict [])])
  = Ok (py "{" ++ quoted (py "a") ++ py ": [1, null], "
        ++ quoted (py "b") ++ py ": {}}").
Proof. reflexivity. Qed.

(** A whole run on a document of twelve pages without tables. *)
Example run_plain_document :
  run utf8 (Sample.converts_to Sample.doc_plain_pages)
      [Sample.prog; Sample.report] []
  = let text :=
      py "{" ++ [newline]
      ++ py "  " ++ quoted (py "success") ++ py ": true," ++ [newline]
      ++ py "  " ++ quoted (py "markdown") ++ py ": " ++ quoted (py "text")
      ++ py "," ++ [newline]
      ++ py "  " ++ quoted (py "tables") ++ py ": []," ++ [newline]
      ++ py "  " ++ quoted (py "metadata") ++ py ": {" ++ [newline]
      ++ py "    " ++ quoted (py "num_pages") ++ py ": 12," ++ [newline]
      ++ py "    " ++ quoted (py "file_type") ++ py ": " ++ quoted (py ".pdf")
      ++ py "," ++ [newline]
      ++ py "    " ++ quoted (py "file_name") ++ py ": "
      ++ quoted (py "report.final.pdf") ++ [newline]
      ++ py "  }" ++ [newline]
      ++ py "}" in
    mkOutcome (text ++ [newline]) (Exit 0)
              [EvNewConverter; EvConvert Sample.report; EvPrint text].
Proof. reflexivity. Qed.

(** The path comes from the first line of standard input, stripped. *)
Example run_path_from_stdin :
  resolved_path [Sample.prog] (py "  a.pdf " ++ [newline] ++ py "b.pdf")
  = py "a.pdf"
  /\ out_trace (run utf8 (Sample.fails_with Sample.file_not_found)
                    [Sample.prog]
                    (py "  a.pdf " ++ [newline] ++ py "b.pdf"))
     = [EvReadline; EvNewConverter; EvConvert (py "a.pdf");
        EvPrint (failure_text Sample.file_not_found)].
Proof. split; reflexivity. Qed.

(** An empty first argument counts as no path. *)
Example run_empty_argument :
  run utf8 (Sample.converts_to Sample.doc_two) [Sample.prog; []]
      (py "a.pdf")
  = mkOutcome (missing_input_line ++ [newline]) (Exit 1)
              [EvPrint missing_input_line].
Proof. reflexivity. Qed.

(** A message standard output cannot encode: nothing is written and the
    run ends with the traceback of the [UnicodeEncodeError]. *)
Example run_unencodable_message :
  run utf8 (Sample.fails_with Sample.surrogate_message)
      [Sample.prog; Sample.report] []
  = mkOutcome []
      (Traceback
         (mkExn ExceptionCls
            (py "'utf-8' codec can't encode character '" ++ [backslash]
             ++ py "ud800' in position 38: surrogates not allowed")))
      [EvNewConverter; EvConvert Sample.report].
Proof. reflexivity. Qed.

Example utf8_error_second_run_ignored :
  codec_error utf8 (py "ab" ++ [57343%N; 55296%N; 56319%N] ++ py "z"
                    ++ [55296%N])
  = py "'utf-8' codec can't encode characters in position 2-4: surrogates not allowed".
Proof. reflexivity. Qed.

Example utf8_error_run_of_surrogates :
  codec_error utf8 (py "x" ++ [56448%N; 56449%N] ++ py "y")
  = py "'utf-8' codec can't encode characters in position 1-2: surrogates not allowed".
Proof. reflexivity. Qed.

Example dumps_integer_digit_limit :
  Json.dumps false (Some 2%nat) (PyList [PyInt (10 ^ 4299)])
  <> Raise ValueError_int_digits
  /\ Json.dumps false (Some 2%nat) (PyList [PyInt (- 10 ^ 4300)])
     = Raise ValueError_int_digits.
Proof. split; vm_compute; [discriminate | reflexivity]. Qed.

(** A [SystemExit] raised inside the converter passes the [except] clause
    and sets the exit status. *)
Example run_system_exit_in_converter :
  out_exit (run utf8 (Sample.fails_with (SystemExit 3))
                [Sample.prog; Sample.report] [])
  = Exit 3.
Proof. reflexivity. Qed.

(* ================================================================== *)
(** * Facts about the string and path operations *)
(* ================================================================== *)

Section StringFacts.

Lemma rfind_from_spec (c : N) (s : pystr) :
  forall i best,
    rfind_from c s i best = best \/
    (i <= rfind_from c s i best < i + Z.of_nat (length s) /\
     nth_error s (Z.to_nat (rfind_from c s i best - i)) = Some c)%Z.
Proof.
  induction s as [|x s IH]; intros i best; simpl; [now left|].
  destruct (IH (i + 1)%Z (if N.eqb x c then i else best)) as [E | [R Hn]].
  - rewrite E. destruct (N.eqb_spec x c) as [->|_]; [right|now left].
    split; [lia|]. now replace (i - i)%Z with 0%Z by lia.
  - right. split; [lia|].
    replace (Z.to_nat (rfind_from c s (i + 1) (if N.eqb x c then i else best) - i))
      with (S (Z.to_nat (rfind_from c s (i + 1)
                           (if N.eqb x c then i else best) - (i + 1))))
      by lia.
    exact Hn.
Qed.

(** A found index holds the needle. *)
Lemma rfind_found (c : N) (s : pystr) :
  (0 <= rfind c s)%Z ->
  nth_error s (Z.to_nat (rfind c s)) = Some c.
Proof.
  intros H. unfold rfind in *.
  destruct (rfind_from_spec c s 0 (-1)) as [E | [_ Hn]]; [lia|].
  now rewrite Z.sub_0_r in Hn.
Qed.

Lemma skipn_nth_error_cons {A} (l : list A) :
  forall n x, nth_error l n = Some x -> skipn n l = x :: skipn (S n) l.
Proof.
  induction l as [|a l IH]; intros [|n] x H; simpl in *; try discriminate.
  - now inversion H.
  - now apply IH.
Qed.

(** The extension is empty, or a dot followed by at least one character,
    and it ends the name. *)
Lemma suffix_shape (p : pystr) :
  (Path.suffix p = [] \/
   exists ext, Path.suffix p = dot :: ext /\ ext <> [])
  /\ exists stem, Path.name p = stem ++ Path.suffix p.
Proof.
  unfold Path.suffix.
  set (n := Path.name p). set (i := rfind dot n).
  destruct ((0 <? i) && (i <? Z.of_nat (length n) - 1))%Z eqn:G.
  - apply andb_true_iff in G as [G1 G2].
    apply Z.ltb_lt in G1, G2.
    assert (Hn : nth_error n (Z.to_nat i) = Some dot)
      by (apply rfind_found; fold i; lia).
    split.
    + right. exists (skipn (S (Z.to_nat i)) n). split.
      * now apply skipn_nth_error_cons.
      * intros E. apply (f_equal (@length N)) in E.
        rewrite length_skipn in E. simpl in E. lia.
    + exists (firstn (Z.to_nat i) n). now rewrite firstn_skipn.
  - split; [now left|]. exists n. now rewrite app_nil_r.
Qed.

(** A literal without quotes, backslashes or code points below U+0020 is
    written between quotes as it is, whatever else its code points are,
    when [ensure_ascii] is off. *)
Lemma encode_string_plain (s : pystr) :
  forallb plain_char s = true ->
  Json.encode_string false s = quoted s.
Proof.
  unfold Json.encode_string. intros H. f_equal.
  induction s as [|ch s IH]; simpl in *; [reflexivity|].
  apply andb_true_iff in H as [Hc Hs]. rewrite (IH Hs).
  unfold plain_char in Hc.
  apply andb_true_iff in Hc as [Hc H92]. apply andb_true_iff in Hc as [H32 H34].
  apply negb_true_iff in H92, H34.
  apply N.leb_le in H32. apply N.eqb_neq in H92, H34.
  unfold Json.escape_char, Json.short_escape.
  rewrite (proj2 (N.eqb_neq ch 92) H92), (proj2 (N.eqb_neq ch 34) H34).
  destruct (N.eqb_spec ch 8); [lia|]. destruct (N.eqb_spec ch 12); [lia|].
  destruct (N.eqb_spec ch 10); [lia|]. destruct (N.eqb_spec ch 13); [lia|].
  destruct (N.eqb_spec ch 9); [lia|].
  destruct (N.ltb_spec ch 32); [lia|]. reflexivity.
Qed.

(** Every code point outside ASCII is written literally. *)
Lemma escape_char_non_ascii (ch : N) :
  (127 < ch)%N -> Json.escape_char false ch = [ch].
Proof.
  intros H. unfold Json.escape_char, Json.short_escape.
  repeat (match goal with
          | |- context [N.eqb ch ?k] => destruct (N.eqb_spec ch k); [lia|]
          end).
  destruct (N.ltb_spec ch 32); [lia|]. reflexivity.
Qed.

End StringFacts.

(* ================================================================== *)
(** * The table loop *)
(* ================================================================== *)

Section TableLoop.

(** When every table yields its markdown the loop appends one record per
    table, in order. *)
Lemma tables_loop_ok (ts : list Table) :
  Forall (fun t => exists s, table_markdown t = Ok s) ts ->
  forall acc, exists recs,
    tables_loop ts acc = Ok (acc ++ recs) /\ Forall2 record_for ts recs.
Proof.
  induction 1 as [|t ts [s Hs] _ IH]; intros acc.
  - exists []. simpl. now rewrite app_nil_r.
  - destruct (IH (acc ++ [table_record t s])) as (recs & E & F).
    exists (table_record t s :: recs). simpl. rewrite Hs, E.
    rewrite <- app_assoc. split; [reflexivity|].
    constructor; [now exists s | exact F].
Qed.

(** What the loop returns extends the accumulator by one record per
    table. *)
Lemma tables_loop_inv (ts : list Table) :
  forall acc r,
    tables_loop ts acc = Ok r ->
    exists recs, r = acc ++ recs /\ Forall2 record_for ts recs.
Proof.
  induction ts as [|t ts IH]; intros acc r H; simpl in H.
  - inversion H. exists []. now rewrite app_nil_r.
  - destruct (table_markdown t) as [md|e] eqn:Hm; [|discriminate].
    destruct (IH _ _ H) as (recs & -> & F).
    exists (table_record t md :: recs). rewrite <- app_assoc.
    split; [reflexivity|]. constructor; [now exists md | exact F].
Qed.

(** The loop raises what the first failing table raises. *)
Lemma tables_loop_raise (before : list Table) t after e :
  Forall (fun t' => exists s, table_markdown t' = Ok s) before ->
  table_markdown t = Raise e ->
  forall acc, tables_loop (before ++ t :: after) acc = Raise e.
Proof.
  intros Hb Ht. induction Hb as [|t' ts [s Hs] _ IH]; intros acc; simpl.
  - now rewrite Ht.
  - rewrite Hs. apply IH.
Qed.

Lemma tables_loop_raise_inv (ts : list Table) :
  forall acc e,
    tables_loop ts acc = Raise e ->
    exists before t after,
      ts = before ++ t :: after /\
      Forall (fun t' => exists s, table_markdown t' = Ok s) before /\
      table_markdown t = Raise e.
Proof.
  induction ts as [|t ts IH]; intros acc e H; simpl in H; [discriminate|].
  destruct (table_markdown t) as [md|e'] eqn:Hm.
  - destruct (IH _ _ H) as (before & t' & after & -> & Hb & Ht).
    exists (t :: before), t', after. repeat split; auto.
    constructor; [now exists md | exact Hb].
  - inversion H; subst. exists [], t, ts. repeat split; auto.
Qed.

End TableLoop.

(* ================================================================== *)
(** * parse_document: what it evaluates to *)
(* ================================================================== *)

Section ParseDocument.

Variable c : Collaborator.
Variable file_path : pystr.

Ltac run_try :=
  unfold parse_document_try, bind, lift, log, ret; simpl.

(** The value of the [try] body does not depend on the world it runs in,
    and the body leaves both standard streams alone. *)
Lemma parse_document_try_frame (w w' : world) :
  fst (parse_document_try c file_path w)
  = fst (parse_document_try c file_path w')
  /\ w_stdin (snd (parse_document_try c file_path w)) = w_stdin w
  /\ w_stdout (snd (parse_document_try c file_path w)) = w_stdout w
  /\ exists evs,
       w_trace (snd (parse_document_try c file_path w)) = w_trace w ++ evs
       /\ ~ In EvReadline evs.
Proof.
  run_try.
  destruct (new_converter c) as [[]|e]; simpl.
  2:{ repeat split; auto. exists [EvNewConverter]. split; [reflexivity|].
      simpl. intuition discriminate. }
  assert (T : exists evs,
             (w_trace w ++ [EvNewConverter]) ++ [EvConvert file_path]
             = w_trace w ++ evs /\ ~ In EvReadline evs).
  { exists [EvNewConverter; EvConvert file_path]. rewrite <- app_assoc.
    split; [reflexivity|]. simpl. intuition discriminate. }
  destruct (convert_result c file_path) as [doc|e]; simpl; [|now auto].
  destruct (doc_export_to_markdown doc) as [md|e]; simpl; [|now auto].
  destruct (tables_loop (doc_tables doc) []) as [recs|e]; simpl; now auto.
Qed.

Lemma parse_document_try_succeeds doc md :
  extraction_succeeds c file_path doc md ->
  exists recs,
    Forall2 record_for (doc_tables doc) recs /\
    forall w, fst (parse_document_try c file_path w)
              = Ok (success_envelope md recs (metadata_of doc file_path)).
Proof.
  intros (Hn & Hc & Hm & Ht).
  destruct (tables_loop_ok Ht []) as (recs & E & F).
  exists recs. split; [exact F|]. intros w. run_try.
  rewrite Hn; simpl. rewrite Hc; simpl. rewrite Hm; simpl.
  now rewrite E.
Qed.

Lemma parse_document_try_fails e :
  extraction_fails c file_path e ->
  forall w, fst (parse_document_try c file_path w) = Raise e.
Proof.
  intros H w. run_try.
  destruct H as [Hn | Hn Hc | doc Hn Hc Hm | doc md before t after Hn Hc Hm Hl Hb Ht].
  - now rewrite Hn.
  - rewrite Hn; simpl. now rewrite Hc.
  - rewrite Hn; simpl. rewrite Hc; simpl. now rewrite Hm.
  - rewrite Hn; simpl. rewrite Hc; simpl. rewrite Hm; simpl.
    rewrite Hl. now rewrite (@tables_loop_raise before t after e Hb Ht).
Qed.

(** Conversely, the body returns only a success envelope, and only when
    conversion and extraction succeeded; and it raises only what the
    converter or the extraction raised. *)
Lemma parse_document_try_inv w :
  match fst (parse_document_try c file_path w) with
  | Ok envelope =>
      exists doc md recs,
        extraction_succeeds c file_path doc md /\
        Forall2 record_for (doc_tables doc) recs /\
        envelope = success_envelope md recs (metadata_of doc file_path)
  | Raise e => extraction_fails c file_path e
  end.
Proof.
  run_try.
  destruct (new_converter c) as [[]|e] eqn:Hn; simpl;
    [|now apply fails_new_converter].
  destruct (convert_result c file_path) as [doc|e] eqn:Hc; simpl;
    [|now apply fails_convert].
  destruct (doc_export_to_markdown doc) as [md|e] eqn:Hm; simpl;
    [|now apply fails_export with doc].
  destruct (tables_loop (doc_tables doc) []) as [recs|e] eqn:Hl; simpl.
  - destruct (tables_loop_inv _ _ Hl) as (recs' & -> & F). simpl.
    exists doc, md, recs'. repeat split; auto.
    clear Hl. induction F as [|t r ts rs (s & Hs & _) _ IH]; constructor; eauto.
  - destruct (tables_loop_raise_inv _ _ Hl) as (before & t & after & E & Hb & Ht).
    now apply fails_table with doc md before t after.
Qed.

Ltac run_parse w :=
  unfold parse_document, try_except_Exception;
  destruct (parse_document_try c file_path w) as [[a|x] w1] eqn:E; simpl in *.

(** [parse_document] changes the world exactly as its body does. *)
Lemma parse_document_world w :
  snd (parse_document c file_path w) = snd (parse_document_try c file_path w).
Proof.
  run_parse w; [reflexivity|]. now destruct (is_Exception x).
Qed.

Lemma parse_document_frame (w w' : world) :
  fst (parse_document c file_path w) = fst (parse_document c file_path w')
  /\ w_stdin (snd (parse_document c file_path w)) = w_stdin w
  /\ w_stdout (snd (parse_document c file_path w)) = w_stdout w
  /\ exists evs,
       w_trace (snd (parse_document c file_path w)) = w_trace w ++ evs
       /\ ~ In EvReadline evs.
Proof.
  rewrite parse_document_world.
  destruct (parse_document_try_frame w w') as (F & R). split; [|exact R].
  unfold parse_document, try_except_Exception.
  destruct (parse_document_try c file_path w) as [[a|x] w1];
    destruct (parse_document_try c file_path w') as [[a'|x'] w1'];
    simpl in F; inversion F; subst; try reflexivity.
  now destruct (is_Exception x').
Qed.

Lemma parse_document_succeeds doc md :
  extraction_succeeds c file_path doc md ->
  exists recs,
    Forall2 record_for (doc_tables doc) recs /\
    forall w, fst (parse_document c file_path w)
              = Ok (success_envelope md recs (metadata_of doc file_path)).
Proof.
  intros H. destruct (parse_document_try_succeeds H) as (recs & F & R).
  exists recs. split; [exact F|]. intros w. specialize (R w).
  run_parse w; congruence.
Qed.

(** An instance of [Exception] is caught and becomes the failure
    envelope. *)
Lemma parse_document_caught e :
  extraction_fails c file_path e ->
  is_Exception e = true ->
  forall w, fst (parse_document c file_path w) = Ok (failure_envelope e).
Proof.
  intros H He w. pose proof (parse_document_try_fails H w) as R.
  run_parse w; [discriminate|]. inversion R; subst. now rewrite He.
Qed.

(** Anything else propagates. *)
Lemma parse_document_escapes e :
  extraction_fails c file_path e ->
  is_Exception e = false ->
  forall w, fst (parse_document c file_path w) = Raise e.
Proof.
  intros H He w. pose proof (parse_document_try_fails H w) as R.
  run_parse w; [discriminate|]. inversion R; subst. now rewrite He.
Qed.

(** All that [parse_document] can do. *)
Lemma parse_document_inv w :
  match fst (parse_document c file_path w) with
  | Ok envelope =>
      (exists doc md recs,
          extraction_succeeds c file_path doc md /\
          Forall2 record_for (doc_tables doc) recs /\
          envelope = success_envelope md recs (metadata_of doc file_path))
      \/ (exists e, extraction_fails c file_path e /\ is_Exception e = true /\
                    envelope = failure_envelope e)
  | Raise e => extraction_fails c file_path e /\ is_Exception e = false
  end.
Proof.
  pose proof (parse_document_try_inv w) as R.
  run_parse w.
  - now left.
  - destruct (is_Exception x) eqn:He; simpl; [right; now exists x | now split].
Qed.

End ParseDocument.

(* ================================================================== *)
(** * The process: what a run prints and how it ends *)
(* ================================================================== *)

Section Process.

Variable k : codec.
Variable c : Collaborator.

Lemma missing_input_dumps :
  Json.dumps true None missing_input_envelope = Ok missing_input_line.
Proof. reflexivity. Qed.

Lemma failure_envelope_dumps (e : exn) :
  Json.dumps false (Some 2%nat) (failure_envelope e) = Ok (failure_text e).
Proof.
  unfold Json.dumps, failure_envelope, failure_text, Json.encode_string, quoted.
  simpl. repeat (rewrite <- app_assoc; simpl). reflexivity.
Qed.

(** The missing-input line is ASCII: every codec encodes it. *)
Lemma missing_input_printable : printable k missing_input_line = true.
Proof. reflexivity. Qed.

(** Resolving the path, with the world it leaves. *)
Lemma resolve_file_path_world (argv : list pystr) (stdin : pystr) :
  resolve_file_path argv (mkWorld stdin [] [])
  = (Ok (resolved_path argv stdin),
     mkWorld (if (1 <? length argv)%nat then stdin
              else snd (readline_split stdin))
             [] (resolve_events argv)).
Proof.
  unfold resolve_file_path, resolved_path, resolve_events.
  destruct (1 <? length argv)%nat; [reflexivity|].
  unfold bind, stdin_readline, ret; simpl.
  now destruct (readline_split stdin).
Qed.

Lemma truthy_nonempty (s : pystr) : s <> [] -> truthy s = true.
Proof. destruct s; [congruence|reflexivity]. Qed.

(** [parse_document] leaves both streams alone and adds to the trace the
    construction of the converter and at most one [convert] call. *)
Lemma parse_document_events (file_path : pystr) (w : world) :
  snd (parse_document c file_path w)
  = mkWorld (w_stdin w) (w_stdout w)
            (w_trace w ++ converter_events c file_path).
Proof.
  rewrite parse_document_world.
  unfold parse_document_try, converter_events, bind, lift, log, ret. simpl.
  destruct (new_converter c) as [[]|e]; simpl; [|reflexivity].
  rewrite <- app_assoc. simpl.
  destruct (convert_result c file_path) as [doc|e]; simpl; [|reflexivity].
  destruct (doc_export_to_markdown doc) as [md|e]; simpl; [|reflexivity].
  now destruct (tables_loop (doc_tables doc) []).
Qed.

(** With no path the run prints the compact line and exits with 1; the
    converter is never reached. *)
Lemma run_missing_input (argv : list pystr) (stdin : pystr) :
  resolved_path argv stdin = [] ->
  run k c argv stdin
  = mkOutcome (missing_input_line ++ [newline]) (Exit 1)
              (resolve_events argv ++ [EvPrint missing_input_line]).
Proof.
  intros H. unfold run, main.
  unfold bind at 1 2. rewrite resolve_file_path_world, H. reflexivity.
Qed.

(** The whole of a run that resolves a path, in closed form:
    [parse_document], the serialising of what it returned, and the
    printing of the text when the codec can encode it. *)
Lemma run_resolved_closed (argv : list pystr) (stdin : pystr) (w : world) :
  resolved_path argv stdin <> [] ->
  run k c argv stdin
  = let trace := resolve_events argv
                 ++ converter_events c (resolved_path argv stdin) in
    match fst (parse_document c (resolved_path argv stdin) w) with
    | Ok envelope =>
        match Json.dumps false (Some 2%nat) envelope with
        | Ok text =>
            if printable k text then
              mkOutcome (text ++ [newline]) (Exit 0) (trace ++ [EvPrint text])
            else mkOutcome [] (Traceback (UnicodeEncodeError k text)) trace
        | Raise e => mkOutcome [] (terminate (Raise e)) trace
        end
    | Raise e => mkOutcome [] (terminate (Raise e)) trace
    end.
Proof.
  intros H. unfold run, main.
  unfold bind at 1 2. rewrite resolve_file_path_world, (truthy_nonempty H).
  simpl.
  set (w1 := mkWorld _ [] (resolve_events argv)).
  destruct (parse_document_frame c (resolved_path argv stdin) w1 w) as (F & _).
  pose proof (parse_document_events (resolved_path argv stdin) w1) as E.
  rewrite <- F. unfold bind at 1.
  destruct (parse_document c (resolved_path argv stdin) w1) as [[env|e] w2];
    simpl in *; subst w2; simpl; [|reflexivity].
  unfold bind, lift, print.
  destruct (Json.dumps false (Some 2%nat) env) as [text|e]; [|reflexivity].
  simpl. now destruct (printable k text).
Qed.

(** With a path the run prints what [parse_document] returned, if that
    can be serialised and encoded, and ends accordingly. *)
Lemma run_resolved (argv : list pystr) (stdin : pystr) (w : world) :
  resolved_path argv stdin <> [] ->
  (out_stdout (run k c argv stdin), out_exit (run k c argv stdin))
  = emit k (fst (parse_document c (resolved_path argv stdin) w)).
Proof.
  intros H. rewrite (run_resolved_closed argv stdin w H). unfold emit.
  destruct (fst (parse_document c (resolved_path argv stdin) w)) as [env|e];
    [|reflexivity].
  destruct (Json.dumps false (Some 2%nat) env) as [text|e]; [|reflexivity].
  now destruct (printable k text).
Qed.

Lemma nonempty_dec (s : pystr) : {s = []} + {s <> []}.
Proof. destruct s; [now left | right; discriminate]. Qed.

(** Standard input is read exactly when there is no argument. *)
Lemma run_reads_stdin (argv : list pystr) (stdin : pystr) :
  reads_stdin (run k c argv stdin) = negb (1 <? length argv)%nat.
Proof.
  assert (Hres : existsb (fun ev => match ev with EvReadline => true | _ => false end)
                         (resolve_events argv) = negb (1 <? length argv)%nat).
  { unfold resolve_events. now destruct (1 <? length argv)%nat. }
  assert (Hcon : forall fp,
             existsb (fun ev => match ev with EvReadline => true | _ => false end)
                     (converter_events c fp) = false).
  { intros fp. unfold converter_events. now destruct (new_converter c). }
  destruct (nonempty_dec (resolved_path argv stdin)) as [P|P].
  - rewrite (run_missing_input _ _ P). unfold reads_stdin; simpl.
    rewrite existsb_app, Hres. simpl. now rewrite orb_false_r.
  - rewrite (run_resolved_closed argv stdin (mkWorld [] [] []) P).
    destruct (fst (parse_document c (resolved_path argv stdin) _)) as [env|e];
      [destruct (Json.dumps false (Some 2%nat) env) as [text|e];
       [destruct (printable k text)|]|];
      unfold reads_stdin; simpl;
      rewrite ?existsb_app, Hres, Hcon; simpl; now rewrite ?orb_false_r.
Qed.

(** Once there is an argument, a run is determined by the first argument
    alone: neither standard input nor the rest of the argument vector
    matters. *)
Lemma run_first_argument_only (argv1 argv2 : list pystr) (stdin1 stdin2 : pystr) :
  (1 < length argv1)%nat ->
  (1 < length argv2)%nat ->
  nth 1 argv1 [] = nth 1 argv2 [] ->
  run k c argv1 stdin1 = run k c argv2 stdin2.
Proof.
  intros L1 L2 A.
  assert (P : forall argv stdin,
             (1 < length argv)%nat ->
             resolved_path argv stdin = nth 1 argv []
             /\ resolve_events argv = []).
  { intros argv stdin L. unfold resolved_path, resolve_events.
    now rewrite (proj2 (Nat.ltb_lt 1 (length argv)) L). }
  destruct (P argv1 stdin1 L1) as (P1 & E1).
  destruct (P argv2 stdin2 L2) as (P2 & E2).
  destruct (nonempty_dec (nth 1 argv2 [])) as [E|E].
  - rewrite (run_missing_input argv1 stdin1) by congruence.
    rewrite (run_missing_input argv2 stdin2) by congruence.
    now rewrite E1, E2.
  - rewrite (run_resolved_closed argv1 stdin1 (mkWorld [] [] []))
      by congruence.
    rewrite (run_resolved_closed argv2 stdin2 (mkWorld [] [] []))
      by congruence.
    now rewrite P1, P2, A, E1, E2.
Qed.

End Process.

(* ================================================================== *)
(** * Shared facts about envelopes *)
(* ================================================================== *)

Section Envelopes.




(** The text of a dict that is not empty: the brace, the newline and
    indentation when an indent is set, then the first key and its value. *)
Lemma encode_dict_first ea indent level k v items text :
  Json.encode ea indent level (PyDict ((k, v) :: items)) = Ok text ->
  exists sv rest,
    Json.encode ea indent (S level) v = Ok sv /\
    text = py "{" ++ Json.newline_indent indent (S level)
           ++ Json.encode_string ea k ++ Json.key_separator ++ sv ++ rest.
Proof.
  simpl. intros H.
  destruct (Json.encode ea indent (S level) v) as [sv|e]; [|discriminate].
  match type of H with
  | match match ?X with _ => _ end with _ => _ end = _ =>
      destruct X as [r|e]; [|discriminate]
  end.
  inversion H.
  exists sv, (r ++ Json.newline_indent indent level ++ py "}").
  split; [reflexivity|].
  unfold Json.encode_string, quoted, Json.key_separator. simpl.
  repeat (rewrite <- app_assoc; simpl). reflexivity.
Qed.

(** The pretty-printed text of a success envelope opens the object on a
    line of its own and indents its first key. *)
Lemma success_envelope_dumps_prefix md recs meta text :
  Json.dumps false (Some 2%nat) (success_envelope md recs meta) = Ok text ->
  exists rest,
    text = py "{" ++ [newline] ++ py "  " ++ quoted (py "success")
           ++ py ": true" ++ rest.
Proof.
  unfold Json.dumps, success_envelope. intros H.
  apply encode_dict_first in H as (sv & rest & E & ->).
  inversion E. exists rest. reflexivity.
Qed.

Lemma failure_text_prefix e :
  exists rest,
    failure_text e = py "{" ++ [newline] ++ py "  " ++ quoted (py "success")
                     ++ py ": false" ++ rest.
Proof. unfold failure_text. simpl. eexists. reflexivity. Qed.

Lemma multi_line_after_newline (a b : pystr) :
  multi_line (a ++ [newline] ++ b ++ [newline]) = true.
Proof.
  unfold multi_line. rewrite !count_occ_app. simpl.
  apply Nat.ltb_lt. lia.
Qed.

(** A table without the export attribute makes the whole extraction fail
    with an [AttributeError]. *)
Lemma table_markdown_missing t :
  tbl_export_to_markdown t = ExportMissing ->
  table_markdown t
  = Raise (AttributeError (tbl_type_name t) (py "export_to_markdown")).
Proof. unfold table_markdown. now intros ->. Qed.

(** A table whose export is a method yields what the method returns. *)
Lemma table_markdown_method t r :
  tbl_export_to_markdown t = ExportMethod r -> table_markdown t = r.
Proof. unfold table_markdown. now intros ->. Qed.

(** A table whose export attribute is not callable yields [str(table)]. *)
Lemma table_markdown_not_callable t :
  tbl_export_to_markdown t = ExportNotCallable ->
  table_markdown t = Ok (tbl_str t).
Proof. unfold table_markdown. now intros ->. Qed.

(** The row and column counts of a record are the attributes when they
    are there and [None] when they are not. *)
Lemma table_record_counts t md :
  get (py "data") (table_record t md) = Some (PyStr md)
  /\ get (py "num_rows") (table_record t md)
     = Some (match tbl_num_rows t with Some v => v | None => PyNone end)
  /\ get (py "num_cols") (table_record t md)
     = Some (match tbl_num_cols t with Some v => v | None => PyNone end).
Proof. repeat split. Qed.

End Envelopes.

(* ================================================================== *)
(** * When json.dumps accepts a value *)
(* ================================================================== *)

Section Serializable.

(** Induction on values, through the lists and dicts they nest in. *)
Lemma pyval_induction (P : pyval -> Prop) :
  P PyNone ->
  (forall b, P (PyBool b)) ->
  (forall z, P (PyInt z)) ->
  (forall s, P (PyStr s)) ->
  (forall items, Forall P items -> P (PyList items)) ->
  (forall items, Forall (fun kv => P (snd kv)) items -> P (PyDict items)) ->
  (forall t, P (PyCallable t)) ->
  forall v, P v.
Proof.
  intros HN HB HZ HS HL HD HC.
  fix IH 1. intros [ |b|z|s|items|items|t].
  - exact HN.
  - apply HB.
  - apply HZ.
  - apply HS.
  - apply HL.
    refine ((fix go (l : list pyval) : Forall P l :=
               match l with
               | [] => Forall_nil P
               | x :: l' => Forall_cons x (IH x) (go l')
               end) items).
  - apply HD.
    refine ((fix go (l : list (pystr * pyval))
               : Forall (fun kv => P (snd kv)) l :=
               match l with
               | [] => Forall_nil _
               | kv :: l' => Forall_cons kv (IH (snd kv)) (go l')
               end) items).
  - apply HC.
Qed.

Lemma encode_items_ok {A} (enc : A -> result pystr) sep (l : list A) :
  Forall (fun x => exists s, enc x = Ok s) l ->
  forall first, exists r, Json.encode_items enc sep first l = Ok r.
Proof.
  induction 1 as [|x l [s Hs] _ IH]; intros first; simpl.
  - now exists [].
  - rewrite Hs. destruct (IH false) as [r ->]. eexists. reflexivity.
Qed.

Lemma encode_items_inv {A} (enc : A -> result pystr) sep (l : list A) :
  forall first r,
    Json.encode_items enc sep first l = Ok r ->
    Forall (fun x => exists s, enc x = Ok s) l.
Proof.
  induction l as [|x l IH]; intros first r H; simpl in H; constructor.
  - destruct (enc x) as [s|e]; [now exists s | discriminate].
  - destruct (enc x) as [s|e]; [|discriminate].
    destruct (Json.encode_items enc sep false l) as [r'|e] eqn:E;
      [|discriminate].
    now apply (IH false r').
Qed.

(** [json.dumps] returns a text exactly for the values without a callable
    or an integer of too many digits inside; for the others it raises. *)
Lemma encode_serializable (ea : bool) (indent : option nat) (v : pyval) :
  forall level,
    serializable v = true <->
    exists text, Json.encode ea indent level v = Ok text.
Proof.
  induction v as [ |b|z|s|items IH|items IH|t] using pyval_induction;
    intros level.
  - split; [now exists (py "null") | reflexivity].
  - split; [destruct b; eexists; reflexivity | reflexivity].
  - simpl. destruct (Json.int_str_allowed z).
    + split; [eexists; reflexivity | reflexivity].
    + split; [discriminate | intros [text H]; discriminate].
  - split; [eexists; reflexivity | reflexivity].
  - destruct items as [|x items]; [split; [now exists (py "[]") | reflexivity]|].
    remember (x :: items) as l eqn:El.
    assert (Eq : Json.encode ea indent level (PyList l)
                 = match Json.encode_items (Json.encode ea indent (S level))
                           (Json.item_separator indent (S level)) true l with
                   | Raise e => Raise e
                   | Ok body =>
                       Ok (py "[" ++ Json.newline_indent indent (S level)
                           ++ body ++ Json.newline_indent indent level
                           ++ py "]")
                   end) by (now subst l).
    rewrite Eq. clear Eq El. simpl serializable. split.
    + intros H. rewrite forallb_forall in H.
      assert (F : Forall (fun x => exists s,
                              Json.encode ea indent (S level) x = Ok s) l).
      { rewrite Forall_forall in *. intros y Hy.
        apply (IH y Hy (S level)). now apply H. }
      destruct (encode_items_ok _ (Json.item_separator indent (S level)) F true)
        as [r ->].
      eexists. reflexivity.
    + intros [text H].
      destruct (Json.encode_items _ _ true l) as [r|e] eqn:E; [|discriminate].
      apply encode_items_inv in E. rewrite forallb_forall.
      rewrite Forall_forall in *. intros y Hy.
      apply (IH y Hy (S level)). now apply E.
  - destruct items as [|kv items];
      [split; [now exists (py "{}") | reflexivity]|].
    remember (kv :: items) as l eqn:El.
    set (enc := fun kv : pystr * pyval =>
                  match Json.encode ea indent (S level) (snd kv) with
                  | Raise e => Raise e
                  | Ok sx =>
                      Ok (Json.encode_string ea (fst kv) ++ Json.key_separator
                          ++ sx)
                  end).
    assert (Eq : Json.encode ea indent level (PyDict l)
                 = match Json.encode_items enc
                           (Json.item_separator indent (S level)) true l with
                   | Raise e => Raise e
                   | Ok body =>
                       Ok (py "{" ++ Json.newline_indent indent (S level)
                           ++ body ++ Json.newline_indent indent level
                           ++ py "}")
                   end) by (now subst l).
    rewrite Eq. clear Eq El. simpl serializable. split.
    + intros H. rewrite forallb_forall in H.
      assert (F : Forall (fun x => exists s, enc x = Ok s) l).
      { rewrite Forall_forall in *. intros y Hy. unfold enc.
        destruct (proj1 (IH y Hy (S level)) (H y Hy)) as [sx ->].
        eexists. reflexivity. }
      destruct (encode_items_ok _ (Json.item_separator indent (S level)) F true)
        as [r ->].
      eexists. reflexivity.
    + intros [text H].
      destruct (Json.encode_items enc _ true l) as [r|e] eqn:E; [|discriminate].
      apply encode_items_inv in E. rewrite forallb_forall.
      rewrite Forall_forall in *. intros y Hy.
      apply (IH y Hy (S level)). destruct (E y Hy) as [s Hs]. unfold enc in Hs.
      destruct (Json.encode ea indent (S level) (snd y)) as [sx|e];
        [now exists sx | discriminate].
  - split; [discriminate | intros [text H]; discriminate].
Qed.

(** The records of the tables are accepted exactly when the dimensions
    the tables expose are. *)
Lemma records_serializable (ts : list Table) (recs : list pyval) :
  Forall2 record_for ts recs ->
  forallb serializable recs
  = forallb (fun t =>
               serializable (getattr_default (tbl_num_rows t) PyNone)
               && serializable (getattr_default (tbl_num_cols t) PyNone))
            ts.
Proof.
  induction 1 as [|t r ts rs (md & _ & ->) _ IH]; [reflexivity|].
  simpl. rewrite IH. now rewrite andb_true_r.
Qed.

Lemma json_scalar_serializable (v : pyval) :
  json_scalar v = true -> serializable v = true.
Proof. destruct v; simpl; auto; discriminate. Qed.

(** A success envelope is serialised whenever the page count and the table
    dimensions that reach it are JSON scalars. *)
Lemma success_envelope_dumps (doc : Document) (md fp : pystr)
    (recs : list pyval) :
  Forall2 record_for (doc_tables doc) recs ->
  dimensions_plain doc = true ->
  exists text,
    Json.dumps false (Some 2%nat)
      (success_envelope md recs (metadata_of doc fp)) = Ok text.
Proof.
  intros F D. apply encode_serializable.
  unfold dimensions_plain in D. apply andb_true_iff in D as [Dt Dp].
  simpl. rewrite (records_serializable F), (json_scalar_serializable _ Dp).
  rewrite !andb_true_r. apply forallb_forall. intros t Ht.
  rewrite forallb_forall in Dt. specialize (Dt t Ht).
  apply andb_true_iff in Dt as [Dr Dc].
  now rewrite (json_scalar_serializable _ Dr), (json_scalar_serializable _ Dc).
Qed.

(** A table that exposes a dimension as a callable makes the success
    envelope one [json.dumps] refuses. *)
Lemma success_envelope_refused (doc : Document) (md fp : pystr)
    (recs : list pyval) :
  Forall2 record_for (doc_tables doc) recs ->
  callable_dimension doc = true ->
  serializable (success_envelope md recs (metadata_of doc fp)) = false.
Proof.
  intros F D. simpl. rewrite (records_serializable F).
  unfold callable_dimension in D. apply existsb_exists in D as (t & Ht & Hc).
  assert (E : forallb
                (fun t =>
                   serializable (getattr_default (tbl_num_rows t) PyNone)
                   && serializable (getattr_default (tbl_num_cols t) PyNone))
                (doc_tables doc) = false).
  { destruct (forallb _ (doc_tables doc)) eqn:A; [|reflexivity].
    rewrite forallb_forall in A. specialize (A t Ht).
    apply andb_true_iff in A as [Ar Ac]. apply orb_true_iff in Hc as [Hc|Hc].
    - destruct (getattr_default (tbl_num_rows t) PyNone); discriminate.
    - destruct (getattr_default (tbl_num_cols t) PyNone); discriminate. }
  now rewrite E.
Qed.

End Serializable.

(* ================================================================== *)
(** * What the codec of standard output can encode *)
(* ================================================================== *)

Section Printable.

Variable k : codec.

Lemma printable_app (a b : pystr) :
  printable k (a ++ b) = printable k a && printable k b.
Proof. apply forallb_app. Qed.

Lemma encodable_ascii (ch : N) : (ch < 128)%N -> encodable k ch = true.
Proof.
  intros H. unfold encodable. now rewrite (proj2 (N.ltb_lt ch 128) H).
Qed.

Lemma hex_digit_ascii (n : N) : (n < 16)%N -> (Json.hex_digit n < 128)%N.
Proof. intros H. unfold Json.hex_digit. destruct (N.ltb_spec n 10); lia. Qed.

Lemma u_escape_encodable (n : N) : printable k (Json.u_escape n) = true.
Proof.
  unfold Json.u_escape, printable. simpl.
  rewrite !encodable_ascii; try reflexivity;
    apply hex_digit_ascii; apply N.mod_lt; discriminate.
Qed.

(** What is written for a code point the codec encodes is encoded too:
    it is the code point itself or an ASCII escape. *)
Lemma escape_char_encodable (ch : N) :
  encodable k ch = true -> printable k (Json.escape_char false ch) = true.
Proof.
  intros H. unfold Json.escape_char, Json.short_escape.
  repeat (match goal with
          | |- context [N.eqb ch ?n] =>
              destruct (N.eqb_spec ch n); [reflexivity|]
          end).
  destruct (N.ltb_spec ch 32); [apply u_escape_encodable|].
  simpl. now rewrite H.
Qed.

Lemma encode_string_encodable (s : pystr) :
  printable k s = true -> printable k (Json.encode_string false s) = true.
Proof.
  intros H. unfold Json.encode_string, quoted.
  change (printable k (quote :: flat_map (Json.escape_char false) s ++ [quote]))
    with (encodable k quote
          && printable k (flat_map (Json.escape_char false) s ++ [quote])).
  rewrite printable_app. simpl. rewrite andb_true_r.
  induction s as [|ch s IH]; [reflexivity|]. simpl in *.
  apply andb_true_iff in H as [Hc Hs].
  change (forallb (encodable k)
            (Json.escape_char false ch ++ flat_map (Json.escape_char false) s))
    with (printable k
            (Json.escape_char false ch ++ flat_map (Json.escape_char false) s)).
  rewrite printable_app, (escape_char_encodable _ Hc). exact (IH Hs).
Qed.

(** The failure envelope is encoded whenever the message is. *)
Lemma failure_text_encodable (e : exn) :
  printable k (exn_str e) = true -> printable k (failure_text e) = true.
Proof.
  intros H. unfold failure_text. rewrite !printable_app.
  now rewrite (encode_string_encodable _ H).
Qed.

End Printable.

(** [json.dumps] raises nothing but the [TypeError] for a value of a type
    it cannot serialise and the [ValueError] for an integer of too many
    digits: both instances of [Exception]. *)
Lemma encode_items_raise {A} (enc : A -> result pystr) sep (l : list A) :
  forall first e,
    Json.encode_items enc sep first l = Raise e ->
    exists x, In x l /\ enc x = Raise e.
Proof.
  induction l as [|x l IH]; intros first e H; simpl in H; [discriminate|].
  destruct (enc x) as [s|e'] eqn:Ex.
  - destruct (Json.encode_items enc sep false l) as [r|e''] eqn:E;
      [discriminate|].
    inversion H; subst. destruct (IH false e E) as (y & Hy & Ey).
    exists y. split; [now right | exact Ey].
  - inversion H; subst. exists x. split; [now left | exact Ex].
Qed.

Lemma encode_raises_Exception (ea : bool) (indent : option nat) (v : pyval) :
  forall level e,
    Json.encode ea indent level v = Raise e ->
    (exists t, e = TypeError_not_serializable t) \/ e = ValueError_int_digits.
Proof.
  induction v as [ |b|z|s|items IH|items IH|t] using pyval_induction;
    intros level e H; simpl in H; try discriminate.
  - destruct b; discriminate.
  - destruct (Json.int_str_allowed z); [discriminate|]. inversion H. now right.
  - destruct items as [|x items]; [discriminate|].
    destruct (Json.encode_items _ _ true (x :: items)) as [r|e'] eqn:E;
      [discriminate|].
    inversion H; subst. apply encode_items_raise in E as (y & Hy & Ey).
    rewrite Forall_forall in IH. exact (IH y Hy _ _ Ey).
  - destruct items as [|kv items]; [discriminate|].
    destruct (Json.encode_items _ _ true (kv :: items)) as [r|e'] eqn:E;
      [discriminate|].
    inversion H; subst. apply encode_items_raise in E as (y & Hy & Ey).
    rewrite Forall_forall in IH.
    destruct (Json.encode ea indent (S level) (snd y)) as [sx|e''] eqn:Es;
      [discriminate|].
    inversion Ey; subst. exact (IH y Hy _ _ Es).
  - inversion H. left. now exists t.
Qed.

(* ================================================================== *)
(** * The claims of the specification *)
(* ================================================================== *)

Import Sample.

(** C1, as stated, fails: the converter raises [KeyboardInterrupt], which
    is no instance of [Exception]; [except Exception] does not catch it,
    so it escapes [parse_document] and no failure envelope is returned. *)
Lemma C1_keyboard_interrupt_escapes :
  extraction_fails (fails_with keyboard_interrupt) report keyboard_interrupt
  /\ fst (parse_document (fails_with keyboard_interrupt) report w0)
     = Raise keyboard_interrupt
  /\ fst (parse_document (fails_with keyboard_interrupt) report w0)
     <> Ok (failure_envelope keyboard_interrupt).
Proof.
  split; [|split].
  - now apply fails_convert.
  - reflexivity.
  - discriminate.
Qed.

(** C1, amended: when the converter or the result extraction raises an
    exception that is an instance of [Exception], [parse_document] returns
    the envelope with [success] false, [error] the stringified exception,
    [markdown] null, [tables] the empty list and [metadata] the empty
    mapping; when the path is the non-empty resolved path of a run and
    the codec of standard output can encode the message, that envelope is
    what the run prints.  Nothing that is an instance of [Exception] ever
    escapes [parse_document]; an exception that is not one propagates out
    of it. *)
Theorem C1_exception_becomes_failure_envelope
    (k : codec) (c : Collaborator) (file_path : pystr) (e : exn) :
  extraction_fails c file_path e ->
  is_Exception e = true ->
  (forall w, fst (parse_document c file_path w) = Ok (failure_envelope e))
  /\ get (py "success") (failure_envelope e) = Some (PyBool false)
  /\ get (py "error") (failure_envelope e) = Some (PyStr (exn_str e))
  /\ get (py "markdown") (failure_envelope e) = Some PyNone
  /\ get (py "tables") (failure_envelope e) = Some (PyList [])
  /\ get (py "metadata") (failure_envelope e) = Some (PyDict [])
  /\ (forall argv stdin,
        resolved_path argv stdin = file_path -> file_path <> [] ->
        printable k (exn_str e) = true ->
        Json.dumps false (Some 2%nat) (failure_envelope e)
        = Ok (failure_text e)
        /\ out_stdout (run k c argv stdin) = failure_text e ++ [newline])
  /\ (forall c' file_path' w e',
        fst (parse_document c' file_path' w) = Raise e' ->
        is_Exception e' = false)
  /\ (forall c' file_path' e',
        extraction_fails c' file_path' e' ->
        is_Exception e' = false ->
        forall w, fst (parse_document c' file_path' w) = Raise e').
Proof.
  intros Hf He.
  split; [now apply parse_document_caught|].
  do 5 (split; [reflexivity|]).
  split; [|split].
  - intros argv stdin <- Hne Hp. split; [apply failure_envelope_dumps|].
    rewrite (run_resolved_closed k c argv stdin w0 Hne).
    rewrite (parse_document_caught Hf He w0), failure_envelope_dumps.
    now rewrite (failure_text_encodable k e Hp).
  - intros c' fp' w e' H.
    pose proof (parse_document_inv c' fp' w) as I. rewrite H in I.
    apply I.
  - intros c' fp' e' Hf' He'. now apply parse_document_escapes.
Qed.

Lemma C1_witness :
  (forall w, fst (parse_document (fails_with file_not_found) report w)
             = Ok (failure_envelope file_not_found))
  /\ out_stdout (run utf8 (fails_with file_not_found) [prog; report] [])
     = failure_text file_not_found ++ [newline].
Proof.
  assert (Hf : extraction_fails (fails_with file_not_found) report file_not_found)
    by (now apply fails_convert).
  assert (He : is_Exception file_not_found = true) by reflexivity.
  destruct (C1_exception_becomes_failure_envelope utf8 Hf He)
    as (R & _ & _ & _ & _ & _ & P & _).
  split; [exact R|].
  apply (P [prog; report] []); [reflexivity | discriminate | reflexivity].
Defined.

(** C2, as stated, fails: conversion and extraction succeed on a document
    whose table exposes its row count as a method, yet no envelope is
    printed: [json.dumps], outside the [try], raises [TypeError]. *)
Lemma C2_success_without_printed_envelope :
  extraction_succeeds (converts_to doc_method_rows) report doc_method_rows
    (py "text")
  /\ out_stdout (run utf8 (converts_to doc_method_rows) [prog; report] []) = []
  /\ out_exit (run utf8 (converts_to doc_method_rows) [prog; report] [])
     = Traceback (TypeError_not_serializable (py "method")).
Proof.
  split; [|split; reflexivity].
  repeat split. repeat constructor. exists (py "| a |"). reflexivity.
Qed.

(** C2, amended: when conversion and extraction succeed on a path, the
    envelope [parse_document] returns has [success] true, [markdown] a
    string, [metadata.file_name] the base name of the path and
    [metadata.file_type] its extension, which is empty or starts with the
    dot.  When the table dimensions and the page count that reach the
    envelope are JSON scalars the envelope has a serialisation, and a run
    that resolves that path prints it when the codec of standard output
    can encode it. *)
Theorem C2_success_envelope
    (k : codec) (c : Collaborator) (file_path : pystr) (doc : Document)
    (md : pystr) :
  extraction_succeeds c file_path doc md ->
  exists envelope metadata,
    (forall w, fst (parse_document c file_path w) = Ok envelope)
    /\ get (py "success") envelope = Some (PyBool true)
    /\ get (py "markdown") envelope = Some (PyStr md)
    /\ get (py "metadata") envelope = Some metadata
    /\ get (py "file_name") metadata = Some (PyStr (Path.name file_path))
    /\ get (py "file_type") metadata = Some (PyStr (Path.suffix file_path))
    /\ (Path.suffix file_path = [] \/
        exists ext, Path.suffix file_path = dot :: ext /\ ext <> [])
    /\ (dimensions_plain doc = true ->
        exists text,
          Json.dumps false (Some 2%nat) envelope = Ok text
          /\ forall argv stdin,
               resolved_path argv stdin = file_path -> file_path <> [] ->
               printable k text = true ->
               out_stdout (run k c argv stdin) = text ++ [newline]).
Proof.
  intros H. destruct (parse_document_succeeds H) as (recs & F & R).
  exists (success_envelope md recs (metadata_of doc file_path)),
         (metadata_of doc file_path).
  split; [exact R|]. do 5 (split; [reflexivity|]).
  split; [apply suffix_shape|].
  intros D.
  destruct (@success_envelope_dumps doc md file_path recs F D) as (text & T).
  exists text. split; [exact T|].
  intros argv stdin <- Hne Hp.
  rewrite (run_resolved_closed k c argv stdin w0 Hne), (R w0), T.
  now rewrite Hp.
Qed.

Lemma C2_witness :
  exists envelope metadata,
    (forall w, fst (parse_document (converts_to doc_two) report w) = Ok envelope)
    /\ get (py "success") envelope = Some (PyBool true)
    /\ get (py "markdown") envelope
       = Some (PyStr (py "# R" ++ [233%N] ++ py "sum" ++ [233%N]))
    /\ get (py "metadata") envelope = Some metadata
    /\ get (py "file_name") metadata = Some (PyStr (py "report.final.pdf"))
    /\ get (py "file_type") metadata = Some (PyStr (py ".pdf"))
    /\ exists text,
         Json.dumps false (Some 2%nat) envelope = Ok text
         /\ out_stdout (run utf8 (converts_to doc_two) [prog; report] [])
            = text ++ [newline].
Proof.
  assert (H : extraction_succeeds (converts_to doc_two) report doc_two
                (py "# R" ++ [233%N] ++ py "sum" ++ [233%N])).
  { repeat split. repeat constructor.
    - exists (py "| a | b |"). reflexivity.
    - exists (py "TableItem(b)"). reflexivity. }
  destruct (C2_success_envelope utf8 H)
    as (env & meta & R & S & M & Me & Fn & Ft & _ & P).
  destruct (P eq_refl) as (text & T & Q).
  exists env, meta. do 6 (split; [assumption|]).
  exists text. split; [exact T|].
  apply (Q [prog; report] []); [reflexivity | discriminate |].
  pose proof (R w0) as R0. vm_compute in R0. inversion R0; subst env.
  vm_compute in T. inversion T; subst text. vm_compute. reflexivity.
Defined.

(** C3: with no command-line argument and a first line of standard input
    that is empty once stripped, the run prints the envelope with
    [success] false and [error] "No file path provided" and ends with exit
    status 1; the converter is not invoked. *)
Theorem C3_missing_input
    (k : codec) (c : Collaborator) (argv : list pystr) (stdin : pystr) :
  (length argv <= 1)%nat ->
  strip (fst (readline_split stdin)) = [] ->
  run k c argv stdin
  = mkOutcome (missing_input_line ++ [newline]) (Exit 1)
              [EvReadline; EvPrint missing_input_line]
  /\ Json.dumps true None missing_input_envelope = Ok missing_input_line
  /\ get (py "success") missing_input_envelope = Some (PyBool false)
  /\ get (py "error") missing_input_envelope
     = Some (PyStr (py "No file path provided"))
  /\ invokes_converter (run k c argv stdin) = false.
Proof.
  intros L B.
  assert (N1 : (1 <? length argv)%nat = false) by (apply Nat.ltb_ge; lia).
  assert (P : resolved_path argv stdin = []).
  { unfold resolved_path. now rewrite N1. }
  assert (R : run k c argv stdin
              = mkOutcome (missing_input_line ++ [newline]) (Exit 1)
                          [EvReadline; EvPrint missing_input_line]).
  { rewrite (run_missing_input k c _ _ P). unfold resolve_events.
    now rewrite N1. }
  split; [exact R|]. do 3 (split; [reflexivity|]).
  now rewrite R.
Qed.

Lemma C3_witness :
  run utf8 (converts_to doc_two) [prog] (py "   " ++ [newline] ++ report)
  = mkOutcome (missing_input_line ++ [newline]) (Exit 1)
              [EvReadline; EvPrint missing_input_line].
Proof.
  apply (C3_missing_input utf8 (converts_to doc_two) [prog]
           (py "   " ++ [newline] ++ report)).
  - simpl. lia.
  - reflexivity.
Defined.

(** C4, at the failing input: a document whose second table has no
    [export_to_markdown] attribute.  Evaluating the attribute inside the
    [hasattr] test raises [AttributeError]; instead of falling back to
    [str(table)] the whole call returns the failure envelope, and the
    record of the first table is lost with it. *)
Theorem C4_missing_export_fails :
  tbl_export_to_markdown table_bare = ExportMissing
  /\ In table_bare (doc_tables doc_bare_table)
  /\ forall w,
       fst (parse_document (converts_to doc_bare_table) report w)
       = Ok (failure_envelope
               (AttributeError (py "Grid") (py "export_to_markdown"))).
Proof.
  split; [reflexivity|]. split; [simpl; auto|].
  apply parse_document_caught; [|reflexivity].
  apply fails_table
    with doc_bare_table (py "text") [table_a] table_bare ([] : list Table);
    try reflexivity.
  repeat constructor. now exists (py "| a | b |").
Qed.

(** C5, as stated, fails on the missing-input run: the envelope is
    written by a [json.dumps] call without [indent], on a single line, and
    that line is not the indented serialisation of the envelope. *)
Lemma C5_missing_input_is_single_line :
  out_stdout (run utf8 (converts_to doc_two) [prog] [])
  = missing_input_line ++ [newline]
  /\ multi_line (out_stdout (run utf8 (converts_to doc_two) [prog] [])) = false
  /\ Json.dumps false (Some 2%nat) missing_input_envelope
     <> Ok missing_input_line.
Proof.
  split; [reflexivity|]. split; [reflexivity|].
  vm_compute. discriminate.
Qed.

(** C5, amended: a run that resolves a non-empty path on which conversion
    or extraction fails with an instance of [Exception], or succeeds with
    table dimensions and a page count that are JSON scalars, has one
    envelope, whose serialisation with [indent=2] and without
    [ensure_ascii] spans several lines, opens the object on its own line
    with the first key indented, and satisfies the invariant of the data
    model; the run writes exactly that text and a newline when the codec
    of standard output can encode it.  A run that resolves no path writes
    the single compact line of the missing-input envelope.  Without
    [ensure_ascii] every code point above 127 is written literally, and
    so is every string free of quotes, backslashes and code points below
    U+0020. *)
Theorem C5_stdout_contract
    (k : codec) (c : Collaborator) (argv : list pystr) (stdin : pystr) :
  (forall e,
      resolved_path argv stdin <> [] ->
      extraction_fails c (resolved_path argv stdin) e ->
      is_Exception e = true ->
      Json.dumps false (Some 2%nat) (failure_envelope e) = Ok (failure_text e)
      /\ multi_line (failure_text e ++ [newline]) = true
      /\ (exists rest,
             failure_text e
             = py "{" ++ [newline] ++ py "  " ++ quoted (py "success")
               ++ py ": " ++ rest)
      /\ envelope_invariant (failure_envelope e) = true
      /\ (printable k (exn_str e) = true ->
          out_stdout (run k c argv stdin) = failure_text e ++ [newline]))
  /\ (forall doc md,
      resolved_path argv stdin <> [] ->
      extraction_succeeds c (resolved_path argv stdin) doc md ->
      dimensions_plain doc = true ->
      exists envelope text,
        (forall w, fst (parse_document c (resolved_path argv stdin) w)
                   = Ok envelope)
        /\ Json.dumps false (Some 2%nat) envelope = Ok text
        /\ multi_line (text ++ [newline]) = true
        /\ (exists rest,
               text = py "{" ++ [newline] ++ py "  " ++ quoted (py "success")
                      ++ py ": " ++ rest)
        /\ envelope_invariant envelope = true
        /\ (printable k text = true ->
            out_stdout (run k c argv stdin) = text ++ [newline]))
  /\ (resolved_path argv stdin = [] ->
      Json.dumps true None missing_input_envelope = Ok missing_input_line
      /\ out_stdout (run k c argv stdin) = missing_input_line ++ [newline])
  /\ (forall ch, (127 < ch)%N -> Json.escape_char false ch = [ch])
  /\ (forall s, forallb plain_char s = true ->
                Json.encode_string false s = quoted s).
Proof.
  split; [|split; [|split; [|split]]].
  - intros e Hne Hf He.
    split; [apply failure_envelope_dumps|]. split; [|split; [|split]].
    + destruct (failure_text_prefix e) as (rest & ->).
      rewrite <- !app_assoc. apply (multi_line_after_newline (py "{")).
    + destruct (failure_text_prefix e) as (rest & ->).
      exists (py "false" ++ rest). reflexivity.
    + reflexivity.
    + intros Hp. rewrite (run_resolved_closed k c argv stdin w0 Hne).
      rewrite (parse_document_caught Hf He w0), failure_envelope_dumps.
      now rewrite (failure_text_encodable k e Hp).
  - intros doc md Hne Hs Hd.
    destruct (parse_document_succeeds Hs) as (recs & F & R).
    destruct (@success_envelope_dumps doc md (resolved_path argv stdin)
                recs F Hd) as (text & T).
    exists (success_envelope md recs
              (metadata_of doc (resolved_path argv stdin))), text.
    split; [exact R|]. split; [exact T|].
    destruct (success_envelope_dumps_prefix _ _ _ T) as (rest & E).
    split; [|split; [|split]].
    + rewrite E. rewrite <- !app_assoc.
      apply (multi_line_after_newline (py "{")).
    + exists (py "true" ++ rest). rewrite E. reflexivity.
    + reflexivity.
    + intros Hp. rewrite (run_resolved_closed k c argv stdin w0 Hne).
      rewrite (R w0), T. now rewrite Hp.
  - intros P. split; [reflexivity|].
    now rewrite (run_missing_input k c _ _ P).
  - apply escape_char_non_ascii.
  - apply encode_string_plain.
Qed.

Lemma C5_witness :
  out_stdout (run utf8 (fails_with file_not_found) [prog; report] [])
  = failure_text file_not_found ++ [newline]
  /\ out_stdout (run utf8 (fails_with file_not_found) [prog] [])
     = missing_input_line ++ [newline].
Proof.
  destruct (C5_stdout_contract utf8 (fails_with file_not_found)
              [prog; report] []) as (P & _).
  destruct (C5_stdout_contract utf8 (fails_with file_not_found) [prog] [])
    as (_ & _ & Q & _).
  split.
  - assert (Hne : resolved_path [prog; report] [] <> []) by discriminate.
    assert (Hf : extraction_fails (fails_with file_not_found)
                   (resolved_path [prog; report] []) file_not_found)
      by (now apply fails_convert).
    destruct (P file_not_found Hne Hf eq_refl) as (_ & _ & _ & _ & W).
    apply W. reflexivity.
  - apply Q. reflexivity.
Defined.

(** C6, as stated, fails: the path is resolved from the argument, the
    converter raises [KeyboardInterrupt], nothing catches it, and the
    process ends with its traceback instead of exit status 0.  The same
    happens, with a [TypeError] from [json.dumps], when conversion
    succeeds on a document whose table exposes its row count as a
    method. *)
Lemma C6_resolved_path_without_exit_0 :
  resolved_path [prog; report] [] = report
  /\ report <> []
  /\ out_exit (run utf8 (fails_with keyboard_interrupt) [prog; report] [])
     = Traceback keyboard_interrupt
  /\ out_exit (run utf8 (fails_with keyboard_interrupt) [prog; report] [])
     <> Exit 0
  /\ out_exit (run utf8 (converts_to doc_method_rows) [prog; report] [])
     = Traceback (TypeError_not_serializable (py "method"))
  /\ out_exit (run utf8 (converts_to doc_method_rows) [prog; report] [])
     <> Exit 0.
Proof.
  split; [reflexivity|]. split; [discriminate|].
  split; [reflexivity|]. split; [discriminate|].
  split; [reflexivity|discriminate].
Qed.

(** C6, amended: a run that resolves no path ends with exit status 1.  A
    run that resolves a non-empty path ends with exit status 0 when
    conversion or extraction fails with an instance of [Exception] whose
    message the codec of standard output can encode, and when they
    succeed with table dimensions and a page count that are JSON scalars
    and a serialisation the codec can encode. *)
Theorem C6_exit_status
    (k : codec) (c : Collaborator) (argv : list pystr) (stdin : pystr) :
  (resolved_path argv stdin = [] -> out_exit (run k c argv stdin) = Exit 1)
  /\ (forall e,
        resolved_path argv stdin <> [] ->
        extraction_fails c (resolved_path argv stdin) e ->
        is_Exception e = true ->
        printable k (exn_str e) = true ->
        out_exit (run k c argv stdin) = Exit 0)
  /\ (forall doc md,
        resolved_path argv stdin <> [] ->
        extraction_succeeds c (resolved_path argv stdin) doc md ->
        dimensions_plain doc = true ->
        exists envelope text,
          (forall w, fst (parse_document c (resolved_path argv stdin) w)
                     = Ok envelope)
          /\ Json.dumps false (Some 2%nat) envelope = Ok text
          /\ (printable k text = true ->
              out_exit (run k c argv stdin) = Exit 0)).
Proof.
  split; [|split].
  - intros P. now rewrite (run_missing_input k c _ _ P).
  - intros e Hne Hf He Hp.
    rewrite (run_resolved_closed k c argv stdin w0 Hne).
    rewrite (parse_document_caught Hf He w0), failure_envelope_dumps.
    now rewrite (failure_text_encodable k e Hp).
  - intros doc md Hne Hs Hd.
    destruct (parse_document_succeeds Hs) as (recs & F & R).
    destruct (@success_envelope_dumps doc md (resolved_path argv stdin)
                recs F Hd) as (text & T).
    exists (success_envelope md recs
              (metadata_of doc (resolved_path argv stdin))), text.
    split; [exact R|]. split; [exact T|].
    intros Hp. rewrite (run_resolved_closed k c argv stdin w0 Hne).
    rewrite (R w0), T. now rewrite Hp.
Qed.

Lemma C6_witness :
  out_exit (run utf8 (fails_with file_not_found) [prog] []) = Exit 1
  /\ out_exit (run utf8 (fails_with file_not_found) [prog] (py " a.pdf "))
     = Exit 0.
Proof.
  split.
  - apply (C6_exit_status utf8 (fails_with file_not_found) [prog] []).
    reflexivity.
  - apply (proj1 (proj2 (C6_exit_status utf8 (fails_with file_not_found)
                           [prog] (py " a.pdf "))) file_not_found).
    + discriminate.
    + now apply fails_convert.
    + reflexivity.
    + reflexivity.
Defined.

(** The unguarded sibling of the page-count guard: a table that exposes
    its row count as a method makes [json.dumps] raise [TypeError] outside
    the [try], and the run ends with a traceback and nothing printed. *)
Lemma method_row_count_ends_with_traceback :
  out_stdout (run utf8 (converts_to doc_method_rows) [prog; report] []) = []
  /\ out_exit (run utf8 (converts_to doc_method_rows) [prog; report] [])
     = Traceback (TypeError_not_serializable (py "method")).
Proof. split; reflexivity. Qed.




(** C8: in the success envelope [metadata.num_pages] is never a callable:
    it is null when the document exposes its page count as a callable,
    the exposed value when that is a plain value, and null when the
    document exposes none. *)
Theorem C8_page_count_guard
    (c : Collaborator) (file_path : pystr) (doc : Document) (md : pystr) :
  extraction_succeeds c file_path doc md ->
  exists envelope metadata num_pages,
    (forall w, fst (parse_document c file_path w) = Ok envelope)
    /\ get (py "success") envelope = Some (PyBool true)
    /\ get (py "metadata") envelope = Some metadata
    /\ get (py "num_pages") metadata = Some num_pages
    /\ callable num_pages = false
    /\ (forall v, doc_num_pages doc = Some v -> callable v = true ->
                  num_pages = PyNone)
    /\ (forall v, doc_num_pages doc = Some v -> callable v = false ->
                  num_pages = v)
    /\ (doc_num_pages doc = None -> num_pages = PyNone).
Proof.
  intros H. destruct (parse_document_succeeds H) as (recs & _ & R).
  exists (success_envelope md recs (metadata_of doc file_path)),
         (metadata_of doc file_path), (page_count doc).
  split; [exact R|]. do 3 (split; [reflexivity|]).
  unfold page_count, getattr_default.
  destruct (doc_num_pages doc) as [v|]; simpl.
  - destruct (callable v) eqn:Cv; repeat split; try congruence;
      intros v' E; inversion E; subst; congruence.
  - repeat split; congruence.
Qed.

Lemma C8_witness :
  exists envelope metadata,
    (forall w, fst (parse_document (converts_to doc_two) report w) = Ok envelope)
    /\ get (py "metadata") envelope = Some metadata
    /\ get (py "num_pages") metadata = Some PyNone.
Proof.
  assert (H : extraction_succeeds (converts_to doc_two) report doc_two
                (py "# R" ++ [233%N] ++ py "sum" ++ [233%N])).
  { repeat split. repeat constructor.
    - exists (py "| a | b |"). reflexivity.
    - exists (py "TableItem(b)"). reflexivity. }
  destruct (C8_page_count_guard H)
    as (env & meta & n & R & _ & M & Np & _ & Hc & _).
  exists env, meta. split; [exact R|]. split; [exact M|].
  now rewrite <- (Hc (PyCallable (py "method")) eq_refl eq_refl).
Defined.

(** C9: in the success envelope [tables] holds one record per table the
    document exposes, in the same order, each with a [data] string that is
    the markdown obtained for that table; no tables give the empty list. *)
Theorem C9_one_record_per_table
    (c : Collaborator) (file_path : pystr) (doc : Document) (md : pystr) :
  extraction_succeeds c file_path doc md ->
  exists envelope recs,
    (forall w, fst (parse_document c file_path w) = Ok envelope)
    /\ get (py "success") envelope = Some (PyBool true)
    /\ get (py "tables") envelope = Some (PyList recs)
    /\ length recs = length (doc_tables doc)
    /\ Forall2 (fun t r => exists s,
                    table_markdown t = Ok s /\
                    get (py "data") r = Some (PyStr s))
               (doc_tables doc) recs
    /\ (doc_tables doc = [] -> recs = []).
Proof.
  intros H. destruct (parse_document_succeeds H) as (recs & F & R).
  exists (success_envelope md recs (metadata_of doc file_path)), recs.
  split; [exact R|]. do 2 (split; [reflexivity|]).
  split; [symmetry; exact (Forall2_length F)|].
  split.
  - clear R. induction F as [|t r ts rs (s & Hs & ->) _ IH];
      constructor; [|exact IH].
    exists s. split; [exact Hs | reflexivity].
  - intros E. rewrite E in F. now inversion F.
Qed.

Lemma C9_witness :
  exists envelope,
    (forall w, fst (parse_document (converts_to doc_two) report w) = Ok envelope)
    /\ exists r1 r2,
         get (py "tables") envelope = Some (PyList [r1; r2])
         /\ get (py "data") r1 = Some (PyStr (py "| a | b |"))
         /\ get (py "data") r2 = Some (PyStr (py "TableItem(b)")).
Proof.
  assert (H : extraction_succeeds (converts_to doc_two) report doc_two
                (py "# R" ++ [233%N] ++ py "sum" ++ [233%N])).
  { repeat split. repeat constructor.
    - exists (py "| a | b |"). reflexivity.
    - exists (py "TableItem(b)"). reflexivity. }
  destruct (C9_one_record_per_table H) as (env & recs & R & _ & T & _ & F & _).
  exists env. split; [exact R|].
  inversion F as [|t1 r1 ts1 rs1 (s1 & M1 & D1) F1]; subst.
  inversion F1 as [|t2 r2 ts2 rs2 (s2 & M2 & D2) F2]; subst.
  inversion F2; subst.
  exists r1, r2. split; [exact T|].
  inversion M1; inversion M2; subst. split; assumption.
Defined.

(** C10: a run with at least one command-line argument never reads
    standard input, and its output, exit status and trace are the same
    whatever standard input holds; they depend on the first argument
    only. *)
Theorem C10_argument_run_ignores_stdin
    (k : codec) (c : Collaborator) (argv : list pystr)
    (stdin1 stdin2 : pystr) :
  (1 < length argv)%nat ->
  reads_stdin (run k c argv stdin1) = false
  /\ run k c argv stdin1 = run k c argv stdin2
  /\ resolved_path argv stdin1 = nth 1 argv []
  /\ (forall argv',
        (1 < length argv')%nat -> nth 1 argv' [] = nth 1 argv [] ->
        run k c argv' stdin2 = run k c argv stdin1).
Proof.
  intros L. split; [|split; [|split]].
  - rewrite run_reads_stdin. now rewrite (proj2 (Nat.ltb_lt _ _) L).
  - now apply run_first_argument_only.
  - unfold resolved_path. now rewrite (proj2 (Nat.ltb_lt _ _) L).
  - intros argv' L' A. now apply run_first_argument_only.
Qed.

Lemma C10_witness :
  reads_stdin (run utf8 (converts_to doc_two) [prog; report] (py "other.pdf"))
  = false
  /\ run utf8 (converts_to doc_two) [prog; report] (py "other.pdf")
     = run utf8 (converts_to doc_two) [prog; report] [].
Proof.
  assert (L : (1 < length [prog; report])%nat) by (simpl; lia).
  destruct (C10_argument_run_ignores_stdin utf8 (converts_to doc_two)
              [prog; report] (py "other.pdf") [] L) as (R & E & _).
  split; [exact R | exact E].
Defined.

(* ================================================================== *)
(** * Beyond the claims: the path read from standard input *)
(* ================================================================== *)

Section StripFacts.

Lemma forallb_rev (f : N -> bool) (l : pystr) :
  forallb f (rev l) = forallb f l.
Proof.
  induction l as [|x l IH]; [reflexivity|]. simpl.
  rewrite forallb_app, IH. simpl. rewrite andb_true_r. apply andb_comm.
Qed.

(** [lstrip] removes a run of whitespace from the front, and what is left
    does not start with whitespace. *)
Lemma lstrip_spec (s : pystr) :
  exists l,
    s = l ++ lstrip s /\ forallb isspace l = true /\
    match lstrip s with [] => True | ch :: _ => isspace ch = false end.
Proof.
  induction s as [|ch s (l & E & Hl & Hh)]; [now exists []|]. simpl.
  destruct (isspace ch) eqn:Hc.
  - exists (ch :: l). simpl. rewrite Hc, Hl. repeat split; [congruence|exact Hh].
  - exists []. repeat split. exact Hc.
Qed.

Lemma lstrip_all_space (s : pystr) :
  forallb isspace s = true -> lstrip s = [].
Proof.
  induction s as [|ch s IH]; [reflexivity|]. simpl. intros H.
  apply andb_true_iff in H as [Hc Hs]. rewrite Hc. now apply IH.
Qed.

Lemma lstrip_head_kept (s : pystr) ch :
  hd_error s = Some ch -> isspace ch = false -> lstrip s = s.
Proof. destruct s as [|x s]; simpl; [discriminate|]. intros [= ->] ->. reflexivity. Qed.

(** [rstrip] removes a run of whitespace from the back, and what is left
    does not end with whitespace. *)
Lemma rstrip_spec (s : pystr) :
  exists r,
    s = rstrip s ++ r /\ forallb isspace r = true /\
    (rstrip s = [] \/ isspace (last (rstrip s) 0%N) = false).
Proof.
  unfold rstrip. destruct (lstrip_spec (rev s)) as (l & E & Hl & Hh).
  exists (rev l). split; [|split].
  - rewrite <- rev_app_distr, <- E. now rewrite rev_involutive.
  - now rewrite forallb_rev.
  - destruct (lstrip (rev s)) as [|ch m]; [now left|]. right.
    simpl. now rewrite last_last.
Qed.

(** [strip] takes whitespace, and only whitespace, from both ends. *)
Lemma strip_spec (s : pystr) :
  exists l r,
    s = l ++ strip s ++ r
    /\ forallb isspace l = true /\ forallb isspace r = true
    /\ (strip s = [] \/
        exists ch, hd_error (strip s) = Some ch /\ isspace ch = false
                   /\ isspace (last (strip s) 0%N) = false).
Proof.
  unfold strip. destruct (lstrip_spec s) as (l & El & Hl & Hh).
  destruct (rstrip_spec (lstrip s)) as (r & Er & Hr & Ht).
  exists l, r. split; [|split; [exact Hl|split; [exact Hr|]]].
  - rewrite <- Er. exact El.
  - destruct (rstrip (lstrip s)) as [|ch m] eqn:Em; [now left|]. right.
    destruct Ht as [Ht|Ht]; [discriminate|].
    exists ch. split; [reflexivity|]. split; [|exact Ht].
    rewrite Er in Hh. exact Hh.
Qed.

(** A string strips to nothing exactly when it is all whitespace. *)
Lemma strip_empty_iff (s : pystr) :
  strip s = [] <-> forallb isspace s = true.
Proof.
  split.
  - intros E. destruct (strip_spec s) as (l & r & Es & Hl & Hr & _).
    rewrite E in Es. rewrite Es. simpl. now rewrite forallb_app, Hl, Hr.
  - intros H. unfold strip. now rewrite (lstrip_all_space s H).
Qed.

(** The line [readline] returns and what it leaves: together they are the
    input, the line holds no newline before its last character, and it
    ends with the newline when the input has one. *)
Lemma readline_split_spec (s : pystr) :
  fst (readline_split s) ++ snd (readline_split s) = s
  /\ ~ In newline (removelast (fst (readline_split s)))
  /\ (In newline s -> last (fst (readline_split s)) 0%N = newline).
Proof.
  induction s as [|ch s (E & Hn & Hl)]; simpl; [tauto|].
  destruct (N.eqb_spec ch newline) as [->|Hc]; simpl.
  - repeat split; tauto.
  - destruct (readline_split s) as [line rest] eqn:R. simpl in *.
    split; [now rewrite E|]. split.
    + destruct line as [|x line]; [tauto|]. simpl.
      intros [H|H]; [congruence|]. now apply Hn.
    + intros [H|H]; [congruence|]. specialize (Hl H).
      destruct line as [|x line]; [|exact Hl].
      simpl in Hl. unfold newline in Hl. discriminate.
Qed.







End StripFacts.

(* ================================================================== *)
(** * Beyond the claims: the streams and the trace of a run *)
(* ================================================================== *)

Section RunFacts.

Variable c : Collaborator.

Lemma printed_app (a b : list event) :
  printed (a ++ b) = printed a ++ printed b.
Proof.
  induction a as [|ev a IH]; [reflexivity|]. simpl.
  destruct ev; simpl; now rewrite IH.
Qed.

Lemma printed_before_print (argv : list pystr) (file_path : pystr) :
  printed (resolve_events argv ++ converter_events c file_path) = [].
Proof.
  rewrite printed_app. unfold resolve_events, converter_events.
  destruct (1 <? length argv)%nat; destruct (new_converter c); reflexivity.
Qed.

Lemma printed_resolve_events (argv : list pystr) :
  printed (resolve_events argv) = [].
Proof. unfold resolve_events. now destruct (1 <? length argv)%nat. Qed.

Lemma printed_converter_events (file_path : pystr) :
  printed (converter_events c file_path) = [].
Proof. unfold converter_events. now destruct (new_converter c). Qed.

End RunFacts.

(* ================================================================== *)
(** * Beyond the claims: properties of a run *)
(* ================================================================== *)

(** X1: without an argument the path is the first line of standard input
    with whitespace, and nothing but whitespace, taken from both ends: it
    neither starts nor ends with a whitespace character. *)
Theorem X1_stdin_path_is_stripped_line (argv : list pystr) (stdin : pystr) :
  (length argv <= 1)%nat ->
  exists l r,
    fst (readline_split stdin) = l ++ resolved_path argv stdin ++ r
    /\ forallb isspace l = true
    /\ forallb isspace r = true
    /\ (resolved_path argv stdin = [] \/
        exists ch,
          hd_error (resolved_path argv stdin) = Some ch
          /\ isspace ch = false
          /\ isspace (last (resolved_path argv stdin) 0%N) = false)
    /\ resolve_file_path argv (mkWorld stdin [] [])
       = (Ok (resolved_path argv stdin),
          mkWorld (snd (readline_split stdin)) [] [EvReadline]).
Proof.
  intros L.
  assert (N1 : (1 <? length argv)%nat = false) by (apply Nat.ltb_ge; lia).
  pose proof (resolve_file_path_world argv stdin) as W.
  unfold resolved_path, resolve_events in *. rewrite N1 in *.
  destruct (strip_spec (fst (readline_split stdin)))
    as (l & r & E & Hl & Hr & Hs).
  exists l, r. repeat split; assumption.
Qed.

Lemma X1_witness :
  exists l r,
    py "  my report.pdf " ++ [newline]
    = l ++ resolved_path [prog] (py "  my report.pdf " ++ [newline] ++ py "x")
        ++ r
    /\ forallb isspace l = true /\ forallb isspace r = true.
Proof.
  assert (L : (length [prog] <= 1)%nat) by (simpl; lia).
  destruct (X1_stdin_path_is_stripped_line
              [prog] (py "  my report.pdf " ++ [newline] ++ py "x") L)
    as (l & r & E & Hl & Hr & _).
  exists l, r. repeat split; assumption.
Defined.

(** X2: the converter is invoked exactly when the resolved path is not
    empty.  Without an argument the path is empty exactly when the first
    line of standard input is all whitespace; with an argument, exactly
    when the first argument is the empty string (an argument of
    whitespace is a path). *)
Theorem X2_converter_invoked_iff_path
    (k : codec) (c : Collaborator) (argv : list pystr) (stdin : pystr) :
  invokes_converter (run k c argv stdin) = truthy (resolved_path argv stdin)
  /\ ((length argv <= 1)%nat ->
      (resolved_path argv stdin = [] <->
       forallb isspace (fst (readline_split stdin)) = true))
  /\ ((1 < length argv)%nat ->
      (resolved_path argv stdin = [] <-> nth 1 argv [] = [])).
Proof.
  split; [|split].
  - destruct (nonempty_dec (resolved_path argv stdin)) as [P|P].
    + rewrite (run_missing_input k c _ _ P), P. unfold invokes_converter; simpl.
      rewrite existsb_app. unfold resolve_events.
      now destruct (1 <? length argv)%nat.
    + rewrite (run_resolved_closed k c argv stdin w0 P), (truthy_nonempty P).
      assert (H : forall l,
                 existsb (fun ev => match ev with
                                    | EvNewConverter | EvConvert _ => true
                                    | _ => false
                                    end)
                   ((resolve_events argv
                     ++ converter_events c (resolved_path argv stdin)) ++ l)
                 = true).
      { intros l. rewrite !existsb_app. unfold converter_events. simpl.
        now rewrite !orb_true_r. }
      pose proof (H []) as H0. rewrite app_nil_r in H0.
      destruct (fst (parse_document c (resolved_path argv stdin) w0))
        as [env|e];
        [destruct (Json.dumps false (Some 2%nat) env) as [text|e];
         [destruct (printable k text)|]|];
        unfold invokes_converter; simpl;
        [apply H | exact H0 | exact H0 | exact H0].
  - intros L. unfold resolved_path.
    rewrite (proj2 (Nat.ltb_ge 1 (length argv)) L). apply strip_empty_iff.
  - intros L. unfold resolved_path.
    rewrite (proj2 (Nat.ltb_lt 1 (length argv)) L). tauto.
Qed.



(** X4: the trace of every run: one [readline] exactly when there is no
    argument; then, only if the path is not empty, the construction of
    the converter and, if that succeeded, one [convert] call on exactly
    the resolved path; then at most one [print], of the text that is on
    standard output. *)
Theorem X4_trace_of_a_run
    (k : codec) (c : Collaborator) (argv : list pystr) (stdin : pystr) :
  out_trace (run k c argv stdin)
  = resolve_events argv
    ++ (if truthy (resolved_path argv stdin)
        then converter_events c (resolved_path argv stdin) else [])
    ++ match out_stdout (run k c argv stdin) with
       | [] => []
       | _ :: _ => [EvPrint (removelast (out_stdout (run k c argv stdin)))]
       end.
Proof.
  destruct (nonempty_dec (resolved_path argv stdin)) as [P|P].
  - rewrite (run_missing_input k c _ _ P), P.
    cbn [out_trace out_stdout truthy]. rewrite removelast_last.
    unfold resolve_events. now destruct (1 <? length argv)%nat.
  - rewrite (run_resolved_closed k c argv stdin w0 P), (truthy_nonempty P).
    destruct (fst (parse_document c (resolved_path argv stdin) w0))
      as [env|e];
      [destruct (Json.dumps false (Some 2%nat) env) as [text|e];
       [destruct (printable k text)|]|];
      cbn [out_trace out_stdout]; rewrite ?app_nil_r; try reflexivity.
    rewrite removelast_last, <- app_assoc.
    now destruct text.
Qed.

(** X5: a run prints at most once, and standard output holds exactly what
    was printed, each text followed by a newline. *)
Theorem X5_prints_at_most_once
    (k : codec) (c : Collaborator) (argv : list pystr) (stdin : pystr) :
  (length (printed (out_trace (run k c argv stdin))) <= 1)%nat
  /\ out_stdout (run k c argv stdin)
     = flat_map (fun text => text ++ [newline])
                (printed (out_trace (run k c argv stdin))).
Proof.
  destruct (nonempty_dec (resolved_path argv stdin)) as [P|P].
  - rewrite (run_missing_input k c _ _ P).
    cbn [out_stdout out_trace]. rewrite printed_app, printed_resolve_events.
    cbn [printed app flat_map length]. rewrite app_nil_r. split; [lia|reflexivity].
  - rewrite (run_resolved_closed k c argv stdin w0 P).
    destruct (fst (parse_document c (resolved_path argv stdin) w0))
      as [env|e];
      [destruct (Json.dumps false (Some 2%nat) env) as [text|e];
       [destruct (printable k text)|]|];
      cbn [out_stdout out_trace];
      rewrite ?printed_app, printed_resolve_events, printed_converter_events;
      cbn [printed app flat_map length]; rewrite ?app_nil_r;
      (split; [lia|reflexivity]).
Qed.


(** X7: when conversion and extraction succeed on the resolved path but a
    table exposes its row or column count as a callable, the run writes
    nothing to standard output and ends with the traceback of an instance
    of [Exception]: [json.dumps], outside the [try], refuses the
    envelope, whatever the codec of standard output. *)
Theorem X7_callable_dimension_ends_with_traceback
    (k : codec) (c : Collaborator) (argv : list pystr) (stdin : pystr)
    (doc : Document) (md : pystr) :
  resolved_path argv stdin <> [] ->
  extraction_succeeds c (resolved_path argv stdin) doc md ->
  callable_dimension doc = true ->
  out_stdout (run k c argv stdin) = []
  /\ exists e,
       out_exit (run k c argv stdin) = Traceback e
       /\ is_Exception e = true.
Proof.
  intros P Hs Hc. destruct (parse_document_succeeds Hs) as (recs & F & R).
  rewrite (run_resolved_closed k c argv stdin w0 P), (R w0).
  pose proof (@success_envelope_refused doc md (resolved_path argv stdin)
                recs F Hc) as S.
  destruct (Json.dumps false (Some 2%nat) _) as [text|e] eqn:D.
  - assert (T : serializable
                  (success_envelope md recs
                     (metadata_of doc (resolved_path argv stdin))) = true).
    { apply (encode_serializable false (Some 2%nat) _ 0). now exists text. }
    congruence.
  - destruct (encode_raises_Exception _ _ _ _ D) as [(t & ->) | ->];
      simpl; split; try reflexivity; eexists; split; reflexivity.
Qed.

Lemma X7_witness :
  out_stdout (run utf8 (converts_to doc_method_rows) [prog; report] []) = []
  /\ exists e,
       out_exit (run utf8 (converts_to doc_method_rows) [prog; report] [])
       = Traceback e
       /\ is_Exception e = true.
Proof.
  assert (P : resolved_path [prog; report] [] <> []) by discriminate.
  assert (H : extraction_succeeds (converts_to doc_method_rows)
                (resolved_path [prog; report] []) doc_method_rows (py "text")).
  { repeat split. repeat constructor. exists (py "| a |"). reflexivity. }
  apply (@X7_callable_dimension_ends_with_traceback utf8 _ _ _ _ _ P H).
  reflexivity.
Defined.

(* ================================================================== *)
(** * Beyond the claims: the file name and the file type *)
(* ================================================================== *)

Section PathFacts.

Lemma pystr_eqb_eq (a b : pystr) : PyStr.eqb a b = true <-> a = b.
Proof.
  revert b. induction a as [|x a IH]; intros [|y b]; simpl;
    try (split; [discriminate|discriminate]); [tauto|].
  rewrite andb_true_iff, N.eqb_eq, IH. split.
  - intros [-> ->]. reflexivity.
  - intros [= -> ->]. auto.
Qed.

Lemma split_nonempty (sep : N) (s : pystr) : split sep s <> [].
Proof.
  destruct s as [|x s]; simpl; [discriminate|].
  destruct (N.eqb x sep); [discriminate|].
  destruct (split sep s); discriminate.
Qed.

(** No component holds the separator. *)
Lemma split_no_sep (sep : N) (s : pystr) :
  Forall (fun w => ~ In sep w) (split sep s).
Proof.
  induction s as [|x s IH]; simpl.
  - constructor; [tauto|constructor].
  - destruct (N.eqb_spec x sep) as [->|Hx].
    + constructor; [tauto|exact IH].
    + destruct (split sep s) as [|w ws]; inversion IH; subst.
      * constructor; [|constructor]. simpl. intuition congruence.
      * constructor; [|assumption]. simpl. intuition congruence.
Qed.

(** Splitting at a separator splits the list of components. *)
Lemma split_app (sep : N) (a b : pystr) :
  split sep (a ++ sep :: b) = split sep a ++ split sep b.
Proof.
  induction a as [|x a IH]; simpl.
  - now rewrite N.eqb_refl.
  - destruct (N.eqb x sep); [now rewrite IH|].
    rewrite IH. pose proof (split_nonempty sep a) as Hn.
    now destruct (split sep a).
Qed.

Lemma split_single (sep : N) (b : pystr) :
  ~ In sep b -> split sep b = [b].
Proof.
  induction b as [|x b IH]; simpl; [reflexivity|]. intros H.
  destruct (N.eqb_spec x sep) as [->|_]; [tauto|].
  rewrite IH; [reflexivity|tauto].
Qed.

Lemma last_in {A} (l : list A) (d : A) : l <> [] -> In (last l d) l.
Proof.
  induction l as [|x l IH]; [congruence|]. intros _.
  destruct l as [|y l]; [now left|]. right. apply IH. discriminate.
Qed.

(** The name is one component of the path: it holds no separator. *)
Lemma name_no_slash (p : pystr) : ~ In slash (Path.name p).
Proof.
  unfold Path.name, Path.tail.
  pose proof (split_no_sep slash p) as F. rewrite Forall_forall in F.
  destruct (filter _ (split slash p)) as [|x l'] eqn:E; [simpl; tauto|].
  apply F.
  assert (I : In (last (x :: l') []) (x :: l')) by (apply last_in; discriminate).
  rewrite <- E in I at 2. now apply filter_In in I as [I _].
Qed.

Lemma rfind_from_absent (c : N) (s : pystr) :
  ~ In c s -> forall i best, rfind_from c s i best = best.
Proof.
  induction s as [|x s IH]; intros H i best; simpl; [reflexivity|].
  destruct (N.eqb_spec x c) as [->|_]; [simpl in H; tauto|].
  apply IH. simpl in H. tauto.
Qed.

(** The needle's last occurrence is found. *)
Lemma rfind_last_occurrence (c : N) (a b : pystr) :
  ~ In c b -> rfind c (a ++ c :: b) = Z.of_nat (length a).
Proof.
  intros H. unfold rfind.
  assert (G : forall i best,
             rfind_from c (a ++ c :: b) i best = (i + Z.of_nat (length a))%Z).
  { induction a as [|x a IH]; intros i best.
    - simpl. rewrite N.eqb_refl, (@rfind_from_absent c b H). lia.
    - simpl app. simpl rfind_from. rewrite IH. simpl length. lia. }
  now rewrite G.
Qed.

(** Nothing after the index [rfind] returns is the needle. *)
Lemma rfind_from_nothing_after (c : N) (s : pystr) :
  forall i best,
    (rfind_from c s i best = best /\ ~ In c s)
    \/ (i <= rfind_from c s i best < i + Z.of_nat (length s)
        /\ ~ In c (skipn (S (Z.to_nat (rfind_from c s i best - i))) s))%Z.
Proof.
  induction s as [|x s IH]; intros i best; simpl rfind_from.
  - left. simpl. tauto.
  - destruct (IH (i + 1)%Z (if N.eqb x c then i else best)) as [[E Hn] | [R Hn]].
    + rewrite E. destruct (N.eqb_spec x c) as [->|Hx].
      * right. simpl length. split; [lia|].
        replace (i - i)%Z with 0%Z by lia. exact Hn.
      * left. split; [reflexivity|]. simpl. intuition congruence.
    + right. simpl length. split; [lia|].
      replace (Z.to_nat (rfind_from c s (i + 1)
                           (if N.eqb x c then i else best) - i))
        with (S (Z.to_nat (rfind_from c s (i + 1)
                             (if N.eqb x c then i else best) - (i + 1))))
        by lia.
      exact Hn.
Qed.

Lemma in_skipn {A} (x : A) (n : nat) (l : list A) :
  In x (skipn n l) -> In x l.
Proof.
  revert l. induction n as [|n IH]; intros [|y l]; simpl; auto.
Qed.

(** The extension in full: when it is not empty the name is a non-empty
    stem, the dot, and a non-empty extension that holds no further dot
    and no separator. *)
Lemma suffix_full_shape (p : pystr) :
  Path.suffix p = [] \/
  exists stem ext,
    Path.name p = stem ++ dot :: ext
    /\ Path.suffix p = dot :: ext
    /\ stem <> [] /\ ext <> []
    /\ ~ In dot ext /\ ~ In slash ext.
Proof.
  unfold Path.suffix.
  set (n := Path.name p). set (i := rfind dot n).
  destruct ((0 <? i) && (i <? Z.of_nat (length n) - 1))%Z eqn:G;
    [|now left].
  right. apply andb_true_iff in G as [G1 G2]. apply Z.ltb_lt in G1, G2.
  assert (Hn : nth_error n (Z.to_nat i) = Some dot)
    by (apply rfind_found; fold i; lia).
  pose proof (@skipn_nth_error_cons _ n _ _ Hn) as Es.
  exists (firstn (Z.to_nat i) n), (skipn (S (Z.to_nat i)) n).
  split; [|split; [exact Es|split; [|split; [|split]]]].
  - rewrite <- Es. now rewrite firstn_skipn.
  - intros E. apply (f_equal (@length N)) in E.
    rewrite length_firstn in E. simpl in E. lia.
  - intros E. apply (f_equal (@length N)) in E.
    rewrite length_skipn in E. simpl in E. lia.
  - destruct (rfind_from_nothing_after dot n 0 (-1)) as [[E _] | [_ Hno]].
    + unfold i, rfind in G1. lia.
    + unfold i, rfind. now rewrite Z.sub_0_r in Hno.
  - intros I. apply in_skipn in I. now apply (name_no_slash p).
Qed.

(** The name of a path that ends in a proper component is that
    component. *)
Lemma name_of_join (dir base : pystr) :
  base <> [] -> ~ In slash base -> base <> [dot] ->
  Path.name (dir ++ slash :: base) = base.
Proof.
  intros Hb Hs Hd. unfold Path.name, Path.tail.
  rewrite split_app, filter_app, (@split_single slash base Hs). simpl.
  rewrite (truthy_nonempty Hb).
  destruct (PyStr.eqb base [dot]) eqn:E;
    [apply pystr_eqb_eq in E; contradiction|].
  simpl. apply last_last.
Qed.

Lemma name_of_component (base : pystr) :
  base <> [] -> ~ In slash base -> base <> [dot] ->
  Path.name base = base.
Proof.
  intros Hb Hs Hd. unfold Path.name, Path.tail.
  rewrite (@split_single slash base Hs). simpl. rewrite (truthy_nonempty Hb).
  destruct (PyStr.eqb base [dot]) eqn:E;
    [apply pystr_eqb_eq in E; contradiction|reflexivity].
Qed.

End PathFacts.

(** X8: [metadata.file_name] holds no path separator.  [metadata.file_type]
    is empty, or else the name is a non-empty stem followed by the type,
    and the type is a dot followed by a non-empty extension with no
    further dot and no separator: only the last extension counts, and a
    name that merely starts or ends with its last dot has no type. *)
Theorem X8_file_name_and_type_shape (doc : Document) (file_path : pystr) :
  get (py "file_name") (metadata_of doc file_path)
  = Some (PyStr (Path.name file_path))
  /\ get (py "file_type") (metadata_of doc file_path)
     = Some (PyStr (Path.suffix file_path))
  /\ ~ In slash (Path.name file_path)
  /\ (Path.suffix file_path = [] \/
      exists stem ext,
        Path.name file_path = stem ++ dot :: ext
        /\ Path.suffix file_path = dot :: ext
        /\ stem <> [] /\ ext <> []
        /\ ~ In dot ext /\ ~ In slash ext).
Proof.
  split; [reflexivity|]. split; [reflexivity|].
  split; [apply name_no_slash | apply suffix_full_shape].
Qed.

(** X9: for a path that ends in a proper component (not empty, without
    separator, not the single dot), whatever directories precede it, the
    file name is that component; and when the component is a non-empty
    stem, a dot and a non-empty extension without dot, the file type is
    the dot and that extension. *)
Theorem X9_name_and_type_of_last_component
    (dir stem ext : pystr) :
  stem <> [] -> ext <> [] ->
  ~ In slash stem -> ~ In slash ext -> ~ In dot ext ->
  Path.name (dir ++ slash :: stem ++ dot :: ext) = stem ++ dot :: ext
  /\ Path.suffix (dir ++ slash :: stem ++ dot :: ext) = dot :: ext
  /\ Path.name (stem ++ dot :: ext) = stem ++ dot :: ext
  /\ Path.suffix (stem ++ dot :: ext) = dot :: ext.
Proof.
  intros Hs He Hss Hse Hde.
  assert (Hb : stem ++ dot :: ext <> []) by (destruct stem; discriminate).
  assert (Hn : ~ In slash (stem ++ dot :: ext)).
  { rewrite in_app_iff. simpl. unfold dot, slash in *.
    intros [H|[H|H]]; [tauto|discriminate|tauto]. }
  assert (Hd : stem ++ dot :: ext <> [dot]).
  { destruct stem as [|x [|y stem]]; [congruence|discriminate|discriminate]. }
  assert (S : forall p,
             Path.name p = stem ++ dot :: ext -> Path.suffix p = dot :: ext).
  { intros p E. unfold Path.suffix. rewrite E.
    rewrite (@rfind_last_occurrence dot stem ext Hde).
    rewrite length_app. simpl length.
    assert (0 < length stem)%nat by (destruct stem; simpl; [congruence|lia]).
    assert (0 < length ext)%nat by (destruct ext; simpl; [congruence|lia]).
    replace ((0 <? Z.of_nat (length stem))
             && (Z.of_nat (length stem)
                 <? Z.of_nat (length stem + S (length ext)) - 1))%Z
      with true
      by (symmetry; apply andb_true_iff; split; apply Z.ltb_lt; lia).
    rewrite Nat2Z.id, skipn_app, skipn_all, Nat.sub_diag. reflexivity. }
  pose proof (@name_of_join dir _ Hb Hn Hd) as N1.
  pose proof (@name_of_component _ Hb Hn Hd) as N2.
  repeat split; auto.
Qed.

Lemma X9_witness :
  Path.name (py "/srv/docs" ++ slash :: py "annual.report" ++ dot :: py "pdf")
  = py "annual.report" ++ dot :: py "pdf"
  /\ Path.suffix (py "/srv/docs" ++ slash :: py "annual.report" ++ dot :: py "pdf")
     = dot :: py "pdf".
Proof.
  assert (H : Path.name (py "/srv/docs" ++ slash :: py "annual.report"
                         ++ dot :: py "pdf")
              = py "annual.report" ++ dot :: py "pdf"
              /\ Path.suffix (py "/srv/docs" ++ slash :: py "annual.report"
                              ++ dot :: py "pdf") = dot :: py "pdf"
              /\ Path.name (py "annual.report" ++ dot :: py "pdf")
                 = py "annual.report" ++ dot :: py "pdf"
              /\ Path.suffix (py "annual.report" ++ dot :: py "pdf")
                 = dot :: py "pdf").
  { apply (@X9_name_and_type_of_last_component
             (py "/srv/docs") (py "annual.report") (py "pdf"));
      try discriminate;
      (intros I; vm_compute in I;
       repeat (destruct I as [I|I]; [discriminate I|]); exact I). }
  destruct H as (A & B & _). split; [exact A | exact B].
Defined.

(* ================================================================== *)
(** * Beyond the claims: the string literals of the output *)
(* ================================================================== *)

Section LiteralFacts.

Lemma escape_char_plain (ch : N) :
  (32 <= ch)%N -> ch <> 34%N -> ch <> 92%N ->
  Json.escape_char false ch = [ch].
Proof.
  intros H32 H34 H92. unfold Json.escape_char, Json.short_escape.
  repeat (match goal with
          | |- context [N.eqb ch ?k] =>
              destruct (N.eqb_spec ch k); [lia || contradiction|]
          end).
  destruct (N.ltb_spec ch 32); [lia|]. reflexivity.
Qed.

(** Reading back what was written for one code point gives that code
    point and leaves the reader at what follows. *)
Lemma scan_escape_char (ch : N) (rest : pystr) :
  JsonRead.scan_string (Json.escape_char false ch ++ rest)
  = match JsonRead.scan_string rest with
    | Some (t, r) => Some (ch :: t, r)
    | None => None
    end.
Proof.
  destruct (N.ltb_spec ch 32) as [Hlt|Hge].
  - destruct ch as [|p]; [reflexivity|].
    do 5 (destruct p as [p|p|]; try reflexivity); lia.
  - destruct (N.eqb_spec ch 34) as [->|H34]; [reflexivity|].
    destruct (N.eqb_spec ch 92) as [->|H92]; [reflexivity|].
    rewrite (escape_char_plain Hge H34 H92). simpl.
    unfold quote, backslash.
    rewrite (proj2 (N.eqb_neq ch 34) H34), (proj2 (N.eqb_neq ch 92) H92).
    now rewrite (proj2 (N.ltb_ge ch 32) Hge).
Qed.

Lemma scan_escaped (s rest : pystr) :
  JsonRead.scan_string (flat_map (Json.escape_char false) s ++ quote :: rest)
  = Some (s, rest).
Proof.
  induction s as [|ch s IH]; [reflexivity|]. simpl.
  now rewrite <- app_assoc, scan_escape_char, IH.
Qed.






End LiteralFacts.

(** X10: a string written by [json.dumps] without [ensure_ascii] reads
    back, by the JSON grammar of string literals, as the same string: the
    reader stops at the closing quote whatever follows, and two different
    strings are never written alike. *)
Theorem X10_string_literal_round_trip (s : pystr) :
  JsonRead.read_string (Json.encode_string false s) = Some s
  /\ (forall rest,
        exists body,
          Json.encode_string false s ++ rest = quote :: body
          /\ JsonRead.scan_string body = Some (s, rest))
  /\ (forall s', Json.encode_string false s = Json.encode_string false s' ->
                 s = s').
Proof.
  assert (R : forall x, JsonRead.read_string (Json.encode_string false x)
                        = Some x).
  { intros x. unfold Json.encode_string, quoted, JsonRead.read_string.
    unfold quote at 1. simpl N.eqb. cbv iota.
    now rewrite scan_escaped. }
  split; [apply R|]. split.
  - intros rest. exists (flat_map (Json.escape_char false) s ++ quote :: rest).
    split; [|apply scan_escaped].
    unfold Json.encode_string, quoted. simpl. now rewrite <- app_assoc.
  - intros s' E. pose proof (R s) as Rs. rewrite E, R in Rs. congruence.
Qed.


(** X12: on success every table of the document has its export
    attribute, and its record holds, under [data], what the export method
    returned or, when the attribute is not callable, [str(table)]; under
    [num_rows] and [num_cols] the attributes as they are, or null when the
    table has none. *)
Theorem X12_table_records
    (c : Collaborator) (file_path : pystr) (doc : Document) (md : pystr) :
  extraction_succeeds c file_path doc md ->
  exists recs,
    (forall w, fst (parse_document c file_path w)
               = Ok (success_envelope md recs (metadata_of doc file_path)))
    /\ Forall2
         (fun t r =>
            tbl_export_to_markdown t <> ExportMissing
            /\ (forall e, tbl_export_to_markdown t <> ExportMethod (Raise e))
            /\ (forall s, tbl_export_to_markdown t = ExportMethod (Ok s) ->
                          get (py "data") r = Some (PyStr s))
            /\ (tbl_export_to_markdown t = ExportNotCallable ->
                get (py "data") r = Some (PyStr (tbl_str t)))
            /\ get (py "num_rows") r
               = Some (match tbl_num_rows t with
                       | Some v => v
                       | None => PyNone
                       end)
            /\ get (py "num_cols") r
               = Some (match tbl_num_cols t with
                       | Some v => v
                       | None => PyNone
                       end))
         (doc_tables doc) recs.
Proof.
  intros H. destruct (parse_document_succeeds H) as (recs & F & R).
  exists recs. split; [exact R|]. clear R H.
  induction F as [|t r ts rs (s & Hs & ->) _ IH]; constructor; [|exact IH].
  unfold table_markdown in Hs.
  destruct (tbl_export_to_markdown t) as [|call|] eqn:E; [discriminate| |].
  - subst call.
    split; [discriminate|]. split; [intros e; discriminate|].
    split; [intros s' [= ->]; reflexivity|].
    split; [discriminate|]. split; reflexivity.
  - inversion Hs; subst.
    split; [discriminate|]. split; [intros e; discriminate|].
    split; [intros s'; discriminate|].
    split; [reflexivity|]. split; reflexivity.
Qed.

Lemma X12_witness :
  exists recs,
    (forall w, fst (parse_document (converts_to doc_two) report w)
               = Ok (success_envelope
                       (py "# R" ++ [233%N] ++ py "sum" ++ [233%N]) recs
                       (metadata_of doc_two report)))
    /\ length recs = 2%nat.
Proof.
  assert (H : extraction_succeeds (converts_to doc_two) report doc_two
                (py "# R" ++ [233%N] ++ py "sum" ++ [233%N])).
  { repeat split. repeat constructor.
    - exists (py "| a | b |"). reflexivity.
    - exists (py "TableItem(b)"). reflexivity. }
  destruct (X12_table_records H) as (recs & R & F).
  exists recs. split; [exact R|].
  symmetry. exact (Forall2_length F).
Defined.

(* ================================================================== *)
(** * Beyond the claims: what the envelope tells *)
(* ================================================================== *)

Lemma extraction_exclusive (c : Collaborator) (file_path : pystr)
    (doc : Document) (md : pystr) (e : exn) :
  extraction_succeeds c file_path doc md ->
  extraction_fails c file_path e ->
  False.
Proof.
  intros Hs Hf. destruct (parse_document_try_succeeds Hs) as (recs & _ & R).
  pose proof (parse_document_try_fails Hf w0) as F.
  rewrite (R w0) in F. discriminate.
Qed.

Lemma extraction_fails_unique (c : Collaborator) (file_path : pystr)
    (e e' : exn) :
  extraction_fails c file_path e ->
  extraction_fails c file_path e' ->
  e = e'.
Proof.
  intros H H'. pose proof (parse_document_try_fails H w0) as F.
  rewrite (parse_document_try_fails H' w0) in F. congruence.
Qed.

(** X13: the [success] field of what [parse_document] returns is
    truthful: it is true only when conversion and extraction succeeded,
    and then no step raised; it is false only when some step raised an
    instance of [Exception], and then [error] is the message of the first
    step that raised, the only one the script reached. *)
Theorem X13_success_flag_is_truthful
    (c : Collaborator) (file_path : pystr) (w : world) (envelope : pyval) :
  fst (parse_document c file_path w) = Ok envelope ->
  (get (py "success") envelope = Some (PyBool true)
   /\ (exists doc md, extraction_succeeds c file_path doc md)
   /\ (forall e, ~ extraction_fails c file_path e))
  \/ (get (py "success") envelope = Some (PyBool false)
      /\ (exists e,
             extraction_fails c file_path e
             /\ is_Exception e = true
             /\ get (py "error") envelope = Some (PyStr (exn_str e))
             /\ forall e', extraction_fails c file_path e' -> e' = e)
      /\ (forall doc md, ~ extraction_succeeds c file_path doc md)).
Proof.
  intros H. pose proof (parse_document_inv c file_path w) as I.
  rewrite H in I.
  destruct I as [(doc & md & recs & Hs & _ & ->) | (e & Hf & He & ->)].
  - left. split; [reflexivity|]. split; [now exists doc, md|].
    intros e Hf. exact (extraction_exclusive Hs Hf).
  - right. split; [reflexivity|]. split.
    + exists e. repeat split; auto.
      intros e' Hf'. exact (extraction_fails_unique Hf' Hf).
    + intros doc md Hs. exact (extraction_exclusive Hs Hf).
Qed.

Lemma X13_witness :
  get (py "success")
      (failure_envelope (AttributeError (py "Grid") (py "export_to_markdown")))
  = Some (PyBool false)
  /\ forall doc md,
       ~ extraction_succeeds (converts_to doc_bare_table) report doc md.
Proof.
  assert (H : fst (parse_document (converts_to doc_bare_table) report w0)
              = Ok (failure_envelope
                      (AttributeError (py "Grid") (py "export_to_markdown"))))
    by reflexivity.
  destruct (X13_success_flag_is_truthful _ _ _ H) as [(S & _) | (S & _ & N)].
  - discriminate S.
  - split; [exact S | exact N].
Defined.

(** X14: when conversion or extraction fails with an instance of
    [Exception] on the resolved path and the codec of standard output can
    encode the message, the client finds the message on standard output:
    after the fixed opening of the failure envelope comes a string literal
    that reads back as [str(e)], followed by the fixed rest of the
    envelope. *)
Theorem X14_error_message_reaches_the_client
    (k : codec) (c : Collaborator) (argv : list pystr) (stdin : pystr)
    (e : exn) :
  resolved_path argv stdin <> [] ->
  extraction_fails c (resolved_path argv stdin) e ->
  is_Exception e = true ->
  printable k (exn_str e) = true ->
  exists body,
    out_stdout (run k c argv stdin)
    = py "{" ++ [newline] ++ py "  " ++ quoted (py "success")
      ++ py ": false," ++ [newline] ++ py "  " ++ quoted (py "error")
      ++ py ": " ++ quote :: body
    /\ JsonRead.scan_string body
       = Some (exn_str e,
               py "," ++ [newline]
               ++ py "  " ++ quoted (py "markdown") ++ py ": null,"
               ++ [newline]
               ++ py "  " ++ quoted (py "tables") ++ py ": [],"
               ++ [newline]
               ++ py "  " ++ quoted (py "metadata") ++ py ": {}"
               ++ [newline] ++ py "}" ++ [newline]).
Proof.
  intros P Hf He Hp.
  rewrite (run_resolved_closed k c argv stdin w0 P).
  rewrite (parse_document_caught Hf He w0), failure_envelope_dumps.
  rewrite (failure_text_encodable k e Hp).
  cbn [out_stdout].
  exists (flat_map (Json.escape_char false) (exn_str e)
          ++ quote :: py "," ++ [newline]
          ++ py "  " ++ quoted (py "markdown") ++ py ": null," ++ [newline]
          ++ py "  " ++ quoted (py "tables") ++ py ": []," ++ [newline]
          ++ py "  " ++ quoted (py "metadata") ++ py ": {}"
          ++ [newline] ++ py "}" ++ [newline]).
  split; [|apply scan_escaped].
  unfold failure_text, Json.encode_string, quoted.
  repeat (rewrite <- app_assoc; simpl). reflexivity.
Qed.

Lemma X14_witness :
  exists body rest,
    out_stdout (run utf8 (fails_with file_not_found) [prog; report] [])
    = py "{" ++ [newline] ++ py "  " ++ quoted (py "success")
      ++ py ": false," ++ [newline] ++ py "  " ++ quoted (py "error")
      ++ py ": " ++ quote :: body
    /\ JsonRead.scan_string body
       = Some (py "[Errno 2] No such file or directory", rest).
Proof.
  assert (P : resolved_path [prog; report] [] <> []) by discriminate.
  assert (Hf : extraction_fails (fails_with file_not_found)
                 (resolved_path [prog; report] []) file_not_found)
    by (now apply fails_convert).
  destruct (@X14_error_message_reaches_the_client
              utf8 (fails_with file_not_found) [prog; report] []
              file_not_found P Hf eq_refl eq_refl) as (body & E & S).
  exists body. eexists. split; [exact E | exact S].
Defined.



